(** * Monte Carlo estimation of pi: the notebook
      [Examples/Use_GPUs_with_Apache_Beam.ipynb]

    The notebook computes pi four times: in native Python, in jitted
    machine code, in a CUDA kernel, and in a Beam pipeline that wraps the
    kernel.  This development embeds the code cells of the notebook and
    proves properties of them.

    Conventions of the embedding:
    - a Python [int] is a [Z]; a numba [int64] is a [Z] with the wrap-around
      written out ([wrap64]);
    - a Python [float] (and a numba [float64]) is a binary64 [spec_float],
      a [np.float32] is a binary32 [spec_float]; the operations are the
      IEEE 754 ones of the standard library's [SpecFloat];
    - an exception is a [Raise] in the [result] type;
    - the random number generators ([random.random] of the Python standard
      library, the xoroshiro128+ generator of [numba.cuda.random]) are not
      code of the notebook: they are section variables, a state type and a
      function that returns a draw and the next state;
    - a numpy array is a [list], read and written by index. *)

From Stdlib Require Import ZArith Lia List Bool Permutation SpecFloat.
From stdpp Require Import base list.

Local Open Scope Z_scope.

(** ** Exceptions *)

Inductive exception : Type :=
  | ZeroDivisionError
  | OverflowError.

Inductive result (A : Type) : Type :=
  | Ok (a : A)
  | Raise (e : exception).

Arguments Ok {A} a.
Arguments Raise {A} e.

(** Sequencing stops at the first exception ([x ← r; k] below). *)
#[export] Instance result_bind : MBind result := fun A B k r =>
  match r with
  | Ok a => k a
  | Raise e => Raise e
  end.

(** ** Floating point numbers *)

Definition float := spec_float.

(** binary64: Python's [float], numba's [float64]. *)
Module Float64.
Definition prec : Z := 53.
Definition emax : Z := 1024.
Definition mul : float -> float -> float := SFmul prec emax.
Definition add : float -> float -> float := SFadd prec emax.
Definition div : float -> float -> float := SFdiv prec emax.
(** The nearest binary64 number to an integer, ties to even. *)
Definition of_Z (z : Z) : float := binary_normalize prec emax z 0 false.
Definition zero : float := S754_zero false.
Definition one : float := Eval cbv in of_Z 1.
Definition four : float := Eval cbv in of_Z 4.
End Float64.

(** binary32: [np.float32]. *)
Module Float32.
Definition prec : Z := 24.
Definition emax : Z := 128.
Definition mul : float -> float -> float := SFmul prec emax.
Definition add : float -> float -> float := SFadd prec emax.
Definition of_Z (z : Z) : float := binary_normalize prec emax z 0 false.
Definition zero : float := S754_zero false.
(** Widening to binary64 is exact: the same number, renormalised. *)
Definition to_float64 (x : float) : float :=
  match x with
  | S754_finite s m e => binary_round Float64.prec Float64.emax s m e
  | _ => x
  end.
End Float32.

Definition is_zero (x : float) : bool :=
  match x with S754_zero _ => true | _ => false end.

Definition is_infinite (x : float) : bool :=
  match x with S754_infinity _ => true | _ => false end.

(** ** Python arithmetic used by the notebook *)

(** [a // b] on Python ints: floor division, [ZeroDivisionError] on a zero
    divisor.  [Z.div] rounds towards minus infinity like Python. *)
Definition floordiv (a b : Z) : result Z :=
  if b =? 0 then Raise ZeroDivisionError else Ok (a / b).

(** Conversion of a Python int to a float, as the mixed operations
    [float * int] and [float / int] do it: rounded to nearest, ties to even;
    an int that rounds beyond the largest finite binary64 number raises
    [OverflowError]. *)
Definition py_float_of_int (z : Z) : result float :=
  if 2 ^ 1024 - 2 ^ 970 <=? Z.abs z then Raise OverflowError
  else Ok (Float64.of_Z z).

(** [a * n] with [a] a float and [n] an int. *)
Definition py_float_mul_int (a : float) (n : Z) : result float :=
  b ← py_float_of_int n; Ok (Float64.mul a b).

(** [a / n] with [a] a float and [n] an int: [ZeroDivisionError] when the
    converted divisor is zero. *)
Definition py_float_div_int (a : float) (n : Z) : result float :=
  b ← py_float_of_int n;
  if is_zero b then Raise ZeroDivisionError else Ok (Float64.div a b).

(** An integer as an (unnormalised) floating point number with exponent 0. *)
Definition float_of_mantissa (z : Z) : float :=
  match z with
  | Z0 => S754_zero false
  | Zpos m => S754_finite false m 0
  | Zneg m => S754_finite true m 0
  end.

(** [a / b] on Python ints (true division): [ZeroDivisionError] on a zero
    divisor, otherwise the exact quotient rounded once to binary64;
    [OverflowError] when it is too large for a float. *)
Definition py_int_truediv (a b : Z) : result float :=
  if b =? 0 then Raise ZeroDivisionError
  else
    let q := Float64.div (float_of_mantissa a) (float_of_mantissa b) in
    if is_infinite q then Raise OverflowError else Ok q.

(** Python's builtin [sum] on ints: a left fold from 0. *)
Definition py_sum (l : list Z) : Z := fold_left Z.add l 0.

(** ** numba's fixed-width integers *)

Definition wrap64 (z : Z) : Z := (z + 2 ^ 63) mod 2 ^ 64 - 2 ^ 63.

Definition int64_range (z : Z) : Prop := - 2 ^ 63 <= z < 2 ^ 63.

(** [a / n] in jitted code, [a] a float64 and [n] an int64: the conversion
    cannot overflow, and numba's default error model raises
    [ZeroDivisionError] on a zero divisor as Python does. *)
Definition nb_float_div_int (a : float) (n : Z) : result float :=
  let b := Float64.of_Z n in
  if is_zero b then Raise ZeroDivisionError else Ok (Float64.div a b).

(** ** Native Python and jitted machine code *)

(** [(x * x + y * y) < 1.0] on Python floats. *)
Definition in_circle (x y : float) : bool :=
  SFltb (Float64.add (Float64.mul x x) (Float64.mul y y)) Float64.one.

Section Native.
(** The state of the generator behind [random.random()], and one call. *)
Context {rng : Type}.
Variable random : rng -> float * rng.

(** The [for i in range(sample_size)] loop of [python_cpu_monte_carlo_pi],
    by the number of iterations left. *)
Fixpoint python_cpu_loop (iterations : nat) (g : rng) (acc : Z) : Z * rng :=
  match iterations with
  | O => (acc, g)
  | S rest =>
      let '(x, g1) := random g in
      let '(y, g2) := random g1 in
      python_cpu_loop rest g2 (if in_circle x y then acc + 1 else acc)
  end.

(** [python_cpu_monte_carlo_pi(sample_size)]: the value returned or the
    exception raised, and the generator state left behind. *)
Definition python_cpu_monte_carlo_pi (sample_size : Z) (g : rng)
  : result float * rng :=
  let '(acc, g') := python_cpu_loop (Z.to_nat sample_size) g 0 in
  (a ← py_float_mul_int Float64.four acc; py_float_div_int a sample_size, g').

(** The same loop compiled by [@jit(nopython=True)]: [acc] is an [int64]. *)
Fixpoint machine_code_cpu_loop (iterations : nat) (g : rng) (acc : Z)
  : Z * rng :=
  match iterations with
  | O => (acc, g)
  | S rest =>
      let '(x, g1) := random g in
      let '(y, g2) := random g1 in
      machine_code_cpu_loop rest g2
        (if in_circle x y then wrap64 (acc + 1) else acc)
  end.

(** [machine_code_cpu_monte_carlo_pi(sample_size)], [sample_size] an
    [int64]. *)
Definition machine_code_cpu_monte_carlo_pi (sample_size : Z) (g : rng)
  : result float * rng :=
  let '(acc, g') := machine_code_cpu_loop (Z.to_nat sample_size) g 0 in
  (nb_float_div_int (Float64.mul Float64.four (Float64.of_Z acc)) sample_size,
   g').
End Native.

(** ** On GPU (CUDA) *)

(** [(x * x + y * y) < 1.0] in the kernel: [x] and [y] are float32, the sum
    of squares is computed in float32 and widened for the comparison with
    the float64 constant. *)
Definition in_circle32 (x y : float) : bool :=
  SFltb (Float32.to_float64 (Float32.add (Float32.mul x x) (Float32.mul y y)))
        Float64.one.

Section Kernel.
(** One generator state (an entry of [rng_states]), and
    [xoroshiro128p_uniform_float32(rng_states, pos)] as a function of the
    entry at [pos]: the float32 drawn and the entry's next value. *)
Context {xstate : Type}.
Variable xoroshiro128p_uniform_float32 : xstate -> float * xstate.

(** What a thread of the kernel holds in registers: inside the loop with
    a number of iterations left and its [sub_acc] (an [int64]), or done. *)
Inductive thread : Type :=
  | Running (iterations : nat) (sub_acc : Z)
  | Exited.

(** Device memory shared by the threads, and the threads of the grid. *)
Record config : Type := Config {
  rng_states : list xstate;
  acc : list float;
  threads : list thread
}.

(** The body of the [for] loop in [gpu_monte_carlo_pi_sampler]. *)
Definition sampler_iteration (st : xstate) (sub_acc : Z) : xstate * Z :=
  let '(x, st1) := xoroshiro128p_uniform_float32 st in
  let '(y, st2) := xoroshiro128p_uniform_float32 st1 in
  (st2, if in_circle32 x y then wrap64 (sub_acc + 1) else sub_acc).

(** One step of the thread at grid position [pos]: one loop iteration on
    its own generator entry, or, after the last iteration, the store
    [acc[pos] = sub_acc] (an int64 converted to float32).  All the memory
    a step reads or writes is at index [pos].  A thread that has exited
    does not move; neither does one whose generator entry is out of
    bounds. *)
Definition thread_step (pos : nat) (c : config) : config :=
  match threads c !! pos with
  | Some (Running (S rest) sub_acc) =>
      match rng_states c !! pos with
      | Some st =>
          let '(st', sub_acc') := sampler_iteration st sub_acc in
          {| rng_states := <[pos := st']> (rng_states c);
             acc := acc c;
             threads := <[pos := Running rest sub_acc']> (threads c) |}
      | None => c
      end
  | Some (Running O sub_acc) =>
      {| rng_states := rng_states c;
         acc := <[pos := Float32.of_Z sub_acc]> (acc c);
         threads := <[pos := Exited]> (threads c) |}
  | _ => c
  end.

(** The threads of a launch: [pos = cuda.grid(1)] ranges over the grid;
    the guard [if pos < acc.size] lets a thread enter the loop with
    [sub_acc = 0], [range(sub_sample_size)] fixes its iterations. *)
Definition spawn (grid : nat) (sub_sample_size : Z) (acc_size : nat)
  : list thread :=
  map (fun pos => if (pos <? acc_size)%nat
                  then Running (Z.to_nat sub_sample_size) 0
                  else Exited)
      (seq 0 grid).

Definition launch_config (grid : nat) (states : list xstate)
    (sub_sample_size : Z) (cells : list float) : config :=
  {| rng_states := states; acc := cells;
     threads := spawn grid sub_sample_size (length cells) |}.

(** A schedule names the thread that takes each step. *)
Definition run_schedule (schedule : list nat) (c : config) : config :=
  fold_left (fun c pos => thread_step pos c) schedule c.

Definition is_exited (t : thread) : bool :=
  match t with Exited => true | Running _ _ => false end.

Definition finished (c : config) : bool := forallb is_exited (threads c).

(** One thread after another, each for all its steps. *)
Definition sequential_schedule (grid : nat) (sub_sample_size : Z) : list nat :=
  flat_map (fun pos => repeat pos (S (Z.to_nat sub_sample_size))) (seq 0 grid).

(** [gpu_monte_carlo_pi_sampler[blocks, threadsperblock](rng_states,
    sub_sample_size, acc)]: the two arrays after the launch. *)
Definition gpu_monte_carlo_pi_sampler (blocks threadsperblock : nat)
    (states : list xstate) (sub_sample_size : Z) (cells : list float)
  : list xstate * list float :=
  let grid := (blocks * threadsperblock)%nat in
  let c := run_schedule (sequential_schedule grid sub_sample_size)
                        (launch_config grid states sub_sample_size cells) in
  (rng_states c, acc c).

(** The loop of one thread run to its end, as a function. *)
Fixpoint sampler_loop (iterations : nat) (st : xstate) (sub_acc : Z)
  : Z * xstate :=
  match iterations with
  | O => (sub_acc, st)
  | S rest =>
      let '(st', sub_acc') := sampler_iteration st sub_acc in
      sampler_loop rest st' sub_acc'
  end.

End Kernel.

(** ** The Beam pipeline *)

Section Sampler.
Context {xstate : Type}.
Variable xoroshiro128p_uniform_float32 : xstate -> float * xstate.

(** The entry that [create_xoroshiro128p_states(n, seed)] stores at an
    index (numba's, not part of the notebook). *)
Variable xoroshiro128p_init : Z -> nat -> xstate.

Definition create_xoroshiro128p_states (n : nat) (seed : Z) : list xstate :=
  map (xoroshiro128p_init seed) (seq 0 n).

(** [np.zeros(n, dtype=np.float32)] *)
Definition np_zeros (n : nat) : list float := replicate n Float32.zero.

(** [Sampler.process(element)]: the array it yields. *)
Definition Sampler_process (element : Z * Z) : list float :=
  let rng_seed := fst element in
  let sample_size_per_sampler := snd element in
  let threadsperblock_per_sampler := 64%nat in
  let blocks_per_sampler := 24%nat in
  let acc_per_sampler :=
    np_zeros (threadsperblock_per_sampler * blocks_per_sampler) in
  let rng_states_per_sampler :=
    create_xoroshiro128p_states
      (threadsperblock_per_sampler * blocks_per_sampler) rng_seed in
  let sub_sample_size_per_thread :=
    sample_size_per_sampler / Z.of_nat (length acc_per_sampler) in
  snd (gpu_monte_carlo_pi_sampler xoroshiro128p_uniform_float32
         blocks_per_sampler threadsperblock_per_sampler
         rng_states_per_sampler sub_sample_size_per_thread acc_per_sampler).
End Sampler.

(** [np.sum(x)] on a float32 array: the float32 sum of the cells, added
    here from left to right.  numpy groups the additions pairwise; the
    grouping shows in the result only once a partial sum needs more than 24
    significant bits. *)
Definition np_sum (x : list float) : float :=
  fold_left Float32.add x Float32.zero.

(** [.astype(int).item()] on a float32 scalar: truncation towards zero to an
    [int64], handed back as a Python int.  What is not a number or does not
    fit becomes the least [int64], as the conversion instruction gives it. *)
Definition astype_int (x : float) : Z :=
  match x with
  | S754_zero _ => 0
  | S754_finite s m e =>
      let magnitude :=
        if 0 <=? e then Z.pos m * 2 ^ e else Z.pos m / 2 ^ (- e) in
      let z := if s then - magnitude else magnitude in
      if (- 2 ^ 63 <=? z) && (z <? 2 ^ 63) then z else - 2 ^ 63
  | _ => - 2 ^ 63
  end.

(** The in-circle count of a sampler, taken from the array it yields:
    [lambda x: np.sum(x).astype(int).item()]. *)
Definition in_circle_count (x : list float) : Z := astype_int (np_sum x).

(** The grouping in which [beam.CombineGlobally(fn)] reduces a PCollection
    is the runner's choice: [fn] is applied to bundles of elements and
    again to the partial results. *)
Inductive combine_plan : Type :=
  | Bundle (elements : list Z)
  | Merge (first second : combine_plan).

Fixpoint plan_elements (p : combine_plan) : list Z :=
  match p with
  | Bundle elements => elements
  | Merge first second => plan_elements first ++ plan_elements second
  end.

Fixpoint CombineGlobally (fn : list Z -> Z) (p : combine_plan) : Z :=
  match p with
  | Bundle elements => fn elements
  | Merge first second =>
      fn [CombineGlobally fn first; CombineGlobally fn second]
  end.

Section Pipeline.
Context {xstate : Type}.
Variable xoroshiro128p_uniform_float32 : xstate -> float * xstate.
Variable xoroshiro128p_init : Z -> nat -> xstate.

(** The globals [sample_size] and [sampler_count] of the notebook. *)
Variable sample_size : Z.
Variable sampler_count : Z.

(** [sample_size_per_sampler = sample_size // sampler_count] *)
Definition sample_size_per_sampler : result Z :=
  floordiv sample_size sampler_count.

(** [[(i, sample_size_per_sampler) for i in range(sampler_count)]]: the
    elements of [beam.Create], a seed and a sample size each. *)
Definition created_elements (per_sampler : Z) : list (Z * Z) :=
  map (fun i => (Z.of_nat i, per_sampler)) (seq 0 (Z.to_nat sampler_count)).

(** [samplers_per_gpu_thread]: one array per element. *)
Definition samplers_per_gpu_thread (per_sampler : Z) : list (list float) :=
  map (Sampler_process xoroshiro128p_uniform_float32 xoroshiro128p_init)
      (created_elements per_sampler).

(** [acc_per_sampler]: the count of each sampler. *)
Definition acc_per_sampler (per_sampler : Z) : list Z :=
  map in_circle_count (samplers_per_gpu_thread per_sampler).

(** [sum_acc = acc_per_sampler | beam.CombineGlobally(sum)], reduced as one
    bundle in the order of creation. *)
Definition sum_acc (per_sampler : Z) : Z :=
  CombineGlobally py_sum (Bundle (acc_per_sampler per_sampler)).

(** [print_pi]: what [lambda x: print(4 * x / sample_size)] prints for the
    element [x], or the exception it raises. *)
Definition print_pi (x : Z) : result float :=
  py_int_truediv (4 * x) sample_size.

(** A run of the notebook's pipeline cells: the elements created for the
    samplers and what the last transform printed. *)
Record run : Type := Run {
  created : list (Z * Z);
  printed : result float
}.

Definition pipeline_run : run :=
  match sample_size_per_sampler with
  | Raise e => {| created := []; printed := Raise e |}
  | Ok per_sampler =>
      {| created := created_elements per_sampler;
         printed := print_pi (sum_acc per_sampler) |}
  end.
End Pipeline.

(** The constants of the notebook. *)
Definition notebook_sample_size : Z := 100000000.
Definition notebook_sampler_count : Z := 100.
Definition threadsperblock : nat := 64.
Definition blocks : nat := 24.

(** [sub_sample_size = sample_size // acc.shape[0]] of the plain GPU cell,
    [acc] having [threadsperblock * blocks] cells. *)
Definition sub_sample_size (sample_size : Z) : Z :=
  sample_size / Z.of_nat (threadsperblock * blocks).

(** [4 * s / sample_size] as [calculate_pi] computes it from the value [s]
    of [np.sum(acc)]: the int literal and the float32 sum meet in float64,
    and so do the product and the [int64] sample size. *)
Definition calculate_pi_of_sum (total : float) (sample_size : Z)
  : result float :=
  nb_float_div_int (Float64.mul Float64.four (Float32.to_float64 total))
                   sample_size.

(** [calculate_pi(acc, sample_size)], jitted: the sum of the float32 array
    is accumulated in float32, cell after cell.  [fastmath=True] leaves the
    compiler free to regroup these additions; whatever the grouping, the
    sum is a float32 number. *)
Definition calculate_pi (acc : list float) (sample_size : Z) : result float :=
  calculate_pi_of_sum (np_sum acc) sample_size.

(** The plain GPU cell: the kernel launched on fresh arrays, then
    [pi = calculate_pi(acc, sample_size)]. *)
Definition gpu_cell_pi {xstate : Type}
    (xoroshiro128p_uniform_float32 : xstate -> float * xstate)
    (xoroshiro128p_init : Z -> nat -> xstate) (sample_size : Z)
  : result float :=
  let acc := np_zeros (threadsperblock * blocks) in
  let rng_states :=
    create_xoroshiro128p_states xoroshiro128p_init
      (threadsperblock * blocks) 1 in
  let launched :=
    gpu_monte_carlo_pi_sampler xoroshiro128p_uniform_float32
      blocks threadsperblock rng_states (sub_sample_size sample_size) acc in
  calculate_pi (snd launched) sample_size.

(** ** Vocabulary for the statements *)

Section Draws.
(** A generator [draw] seen as the sequence of its draws from a state. *)
Context {G : Type}.
Variable draw : G -> float * G.
Variable inside : float -> float -> bool.

(** The state after [k] draws. *)
Fixpoint advance (k : nat) (g : G) : G :=
  match k with
  | O => g
  | S k' => advance k' (snd (draw g))
  end.

(** The [k]-th value drawn from [g], counting from 0. *)
Definition nth_draw (g : G) (k : nat) : float := fst (draw (advance k g)).

(** Iteration [i] takes the draws [2 i] and [2 i + 1] as its point; it is
    a hit when the point passes the test. *)
Definition hit (g : G) (i : nat) : bool :=
  inside (nth_draw g (2 * i)) (nth_draw g (2 * i + 1)).

(** The number of hits among the iterations [0 .. n - 1]. *)
Definition hits (g : G) (n : nat) : nat :=
  length (List.filter (hit g) (seq 0 n)).

(** The shape the three sampling loops of the notebook share; [count] is
    how the counter is incremented. *)
Variable count : Z -> Z.

Fixpoint sampling_loop (iterations : nat) (g : G) (acc : Z) : Z * G :=
  match iterations with
  | O => (acc, g)
  | S rest =>
      let '(x, g1) := draw g in
      let '(y, g2) := draw g1 in
      sampling_loop rest g2 (if inside x y then count acc else acc)
  end.
End Draws.

Section Views.
(** What one grid position sees of a configuration: its thread, its
    generator entry and its cell of [acc].  A step of the thread at a
    position is a function of that view alone. *)
Context {xstate : Type}.
Variable xoroshiro128p_uniform_float32 : xstate -> float * xstate.

Definition view : Type := option thread * option xstate * option float.

Definition view_of (c : config) (pos : nat) : view :=
  (threads c !! pos, rng_states c !! pos, acc c !! pos).

Definition view_step (v : view) : view :=
  match v with
  | (Some (Running (S rest) sub_acc), Some st, cell) =>
      let '(st', sub_acc') :=
        sampler_iteration xoroshiro128p_uniform_float32 st sub_acc in
      (Some (Running rest sub_acc'), Some st', cell)
  | (Some (Running O sub_acc), entry, cell) =>
      (Some Exited, entry,
       match cell with Some _ => Some (Float32.of_Z sub_acc) | None => None end)
  | _ => v
  end.

(** A position is at rest when its thread has exited or does not exist. *)
Definition at_rest (v : view) : Prop :=
  match v with
  | (Some (Running _ _), _, _) => False
  | _ => True
  end.
End Views.

Arguments view : clear implicits.

(** The launch that [Sampler.process] makes for an element. *)
Definition Sampler_launch {xstate : Type}
    (xoroshiro128p_init : Z -> nat -> xstate) (element : Z * Z)
  : config (xstate := xstate) :=
  launch_config (24 * 64)
    (create_xoroshiro128p_states xoroshiro128p_init (64 * 24) (fst element))
    (snd element / Z.of_nat (length (np_zeros (64 * 24))))
    (np_zeros (64 * 24)).

(** The counters [sub_acc] that the threads of that launch end with, by
    grid position. *)
Definition Sampler_counts {xstate : Type}
    (xoroshiro128p_uniform_float32 : xstate -> float * xstate)
    (xoroshiro128p_init : Z -> nat -> xstate) (element : Z * Z) : list Z :=
  map (fun pos =>
         fst (sampler_loop xoroshiro128p_uniform_float32
                (Z.to_nat (snd element / Z.of_nat (64 * 24)))
                (xoroshiro128p_init (fst element) pos) 0))
      (seq 0 (64 * 24)).

(** [p] with [k] zero bits appended. *)
Definition shift_pos (p : positive) (k : nat) : positive := Nat.iter k xO p.

(** The float32 number that holds a whole number of at most 24 bits. *)
Definition float32_whole (p : positive) : float :=
  let k := Z.to_nat (24 - Z.pos (digits2_pos p)) in
  S754_finite false (shift_pos p k) (- Z.of_nat k).

(** A schedule in which every thread takes a step in turn, [rounds] times
    over. *)
Definition round_robin (grid rounds : nat) : list nat :=
  concat (repeat (seq 0 grid) rounds).

(** The iterations a thread still has to make. *)
Definition thread_iterations (t : thread) : nat :=
  match t with
  | Running iterations _ => iterations
  | Exited => 0%nat
  end.

(** The points that the threads of a configuration still have to sample,
    one per iteration. *)
Definition points_to_sample {xstate : Type} (c : config (xstate := xstate))
  : Z :=
  py_sum (map (fun t => Z.of_nat (thread_iterations t)) (threads c)).

(** The launch of the plain GPU cell: [acc] and [rng_states] with
    [threadsperblock * blocks] entries, the generator states created with
    [seed=1], and [sub_sample_size] iterations for each thread. *)
Definition gpu_cell_launch {xstate : Type}
    (xoroshiro128p_init : Z -> nat -> xstate) (sample_size : Z)
  : config (xstate := xstate) :=
  launch_config (blocks * threadsperblock)
    (create_xoroshiro128p_states xoroshiro128p_init
       (threadsperblock * blocks) 1)
    (sub_sample_size sample_size)
    (np_zeros (threadsperblock * blocks)).

(** An order and grouping in which the cells of an array of whole numbers
    are added up in float32. *)
Inductive sum_order : Type :=
  | Cell (c : Z)
  | Plus (left_sum right_sum : sum_order).

Fixpoint order_cells (t : sum_order) : list Z :=
  match t with
  | Cell c => [c]
  | Plus left_sum right_sum => order_cells left_sum ++ order_cells right_sum
  end.

Fixpoint float32_sum (t : sum_order) : float :=
  match t with
  | Cell c => Float32.of_Z c
  | Plus left_sum right_sum =>
      Float32.add (float32_sum left_sum) (float32_sum right_sum)
  end.
(** The kernel launched twice in a row on the same arrays, as when the cell
    that runs it is executed again: the second launch starts from the
    arrays the first one left. *)
Definition launch_twice {xstate : Type}
    (xoroshiro128p_uniform_float32 : xstate -> float * xstate)
    (nblocks nthreads : nat) (states : list xstate) (n m : Z)
    (cells : list float) : list xstate * list float :=
  let first :=
    gpu_monte_carlo_pi_sampler xoroshiro128p_uniform_float32
      nblocks nthreads states n cells in
  gpu_monte_carlo_pi_sampler xoroshiro128p_uniform_float32
    nblocks nthreads (fst first) m (snd first).
(** A float that is not zero and not a NaN has a sign. *)
Definition has_sign (s : bool) (x : float) : Prop :=
  match x with
  | S754_finite s' _ _ | S754_infinity s' => s' = s
  | _ => False
  end.
(** The points that the samplers of the pipeline sample in all, for a
    sample size per sampler. *)
Definition pipeline_points {xstate : Type}
    (xoroshiro128p_init : Z -> nat -> xstate)
    (sampler_count per_sampler : Z) : Z :=
  py_sum (map (fun element =>
                 points_to_sample (Sampler_launch xoroshiro128p_init element))
              (created_elements sampler_count per_sampler)).

(** The total of the counters that the threads of all the samplers of the
    pipeline end with, for a sample size per sampler. *)
Definition pipeline_counters {xstate : Type}
    (xoroshiro128p_uniform_float32 : xstate -> float * xstate)
    (xoroshiro128p_init : Z -> nat -> xstate)
    (sampler_count per_sampler : Z) : Z :=
  py_sum (map (fun element =>
                 py_sum (Sampler_counts xoroshiro128p_uniform_float32
                           xoroshiro128p_init element))
              (created_elements sampler_count per_sampler)).

(** Counts of the size that the threads of the plain GPU cell leave at the
    sample size of the notebook: one for each of its 1536 cells, about
    pi / 4 of the 65104 points of a thread. *)
Definition notebook_scale_counts : list Z := 51134 :: repeat 51133 1535.

(** ** A small generator to run the model on

    A linear congruential generator stands in for the library generators
    wherever a statement is tried on concrete inputs. *)
Module Lcg.
Definition next (s : Z) : Z := (1103515245 * s + 12345) mod 2 ^ 31.

(** A binary64 number in [0, 1) and the next state. *)
Definition random (s : Z) : float * Z :=
  (binary_normalize Float64.prec Float64.emax (next s) (- 31) false, next s).

(** A binary32 number in [0, 1) and the next state. *)
Definition uniform_float32 (s : Z) : float * Z :=
  (binary_normalize Float32.prec Float32.emax (next s / 2 ^ 7) (- 24) false,
   next s).

Definition init (seed : Z) (index : nat) : Z :=
  next (seed * 1536 + Z.of_nat index).
End Lcg.

(** * Properties *)

(** ** Integers *)

Lemma wrap64_small (z : Z) : int64_range z -> wrap64 z = z.
Proof.
  unfold int64_range, wrap64. intros Hz.
  rewrite Z.mod_small; lia.
Qed.

Lemma fold_left_add_shift (l : list Z) (a : Z) :
  fold_left Z.add l a = a + fold_left Z.add l 0.
Proof.
  revert a. induction l as [|x l IH]; intros a; simpl.
  - lia.
  - rewrite (IH (a + x)), (IH (0 + x)). lia.
Qed.

Lemma py_sum_cons (x : Z) (l : list Z) : py_sum (x :: l) = x + py_sum l.
Proof. unfold py_sum. simpl. apply fold_left_add_shift. Qed.

Lemma py_sum_app (l1 l2 : list Z) : py_sum (l1 ++ l2) = py_sum l1 + py_sum l2.
Proof.
  induction l1 as [|x l1 IH]; simpl.
  - reflexivity.
  - rewrite !py_sum_cons, IH. lia.
Qed.

Lemma py_sum_Permutation (l1 l2 : list Z) :
  Permutation l1 l2 -> py_sum l1 = py_sum l2.
Proof.
  induction 1 as [|x l1 l2 _ IH|x y l|l1 l2 l3 _ IH1 _ IH2].
  - reflexivity.
  - rewrite !py_sum_cons, IH. reflexivity.
  - rewrite !py_sum_cons. lia.
  - congruence.
Qed.

Lemma py_sum_repeat (x : Z) (n : nat) : py_sum (repeat x n) = Z.of_nat n * x.
Proof.
  induction n as [|n IH].
  - reflexivity.
  - cbn [repeat]. rewrite py_sum_cons, IH. lia.
Qed.

(** ** The sampling loops *)

Section DrawFacts.
Context {G : Type}.
Variable draw : G -> float * G.
Variable inside : float -> float -> bool.

Lemma advance_add (j k : nat) (g : G) :
  advance draw (j + k) g = advance draw k (advance draw j g).
Proof.
  revert g. induction j as [|j IH]; intros g; simpl.
  - reflexivity.
  - apply IH.
Qed.

Lemma hit_shift (g : G) (i : nat) :
  hit draw inside g (S i) = hit draw inside (advance draw 2 g) i.
Proof.
  unfold hit, nth_draw.
  replace (2 * S i)%nat with (2 + 2 * i)%nat by lia.
  replace (2 * S i + 1)%nat with (2 + (2 * i + 1))%nat by lia.
  now rewrite !advance_add.
Qed.

Lemma hits_shift (g : G) (a n : nat) :
  length (List.filter (hit draw inside g) (seq (S a) n)) =
  length (List.filter (hit draw inside (advance draw 2 g)) (seq a n)).
Proof.
  revert a. induction n as [|n IH]; intros a.
  - reflexivity.
  - cbn [seq List.filter]. rewrite hit_shift.
    destruct (hit draw inside (advance draw 2 g) a); cbn [length];
      now rewrite IH.
Qed.

Lemma hits_S (g : G) (n : nat) :
  hits draw inside g (S n) =
  ((if hit draw inside g 0 then 1 else 0) +
   hits draw inside (advance draw 2 g) n)%nat.
Proof.
  unfold hits. cbn [seq List.filter].
  destruct (hit draw inside g 0); cbn [length]; now rewrite hits_shift.
Qed.

Lemma hits_le (g : G) (n : nat) : (hits draw inside g n <= n)%nat.
Proof.
  unfold hits.
  etransitivity; [apply List.filter_length_le|].
  now rewrite length_seq.
Qed.

(** The loop with an exact counter: it ends with the number of hits added
    to the counter, after two draws per iteration. *)
Lemma sampling_loop_exact (n : nat) (g : G) (acc : Z) :
  sampling_loop draw inside (fun a => a + 1) n g acc =
  (acc + Z.of_nat (hits draw inside g n), advance draw (2 * n) g).
Proof.
  revert g acc. induction n as [|n IH]; intros g acc.
  - cbn. f_equal. lia.
  - cbn [sampling_loop].
    destruct (draw g) as [x g1] eqn:E1.
    destruct (draw g1) as [y g2] eqn:E2.
    assert (Hadv : advance draw 2 g = g2).
    { cbn. now rewrite E1; cbn; rewrite E2. }
    assert (Hhit : hit draw inside g 0 = inside x y).
    { unfold hit, nth_draw. cbn. rewrite E1. cbn. now rewrite E2. }
    rewrite IH, hits_S, Hhit, Hadv.
    replace (2 * S n)%nat with (2 + 2 * n)%nat by lia.
    rewrite advance_add, Hadv.
    destruct (inside x y); f_equal; lia.
Qed.

(** An [int64] counter that cannot reach [2 ^ 63] within the iterations
    left behaves as the exact one. *)
Lemma sampling_loop_wrap64 (n : nat) (g : G) (acc : Z) :
  - 2 ^ 63 <= acc -> acc + Z.of_nat n < 2 ^ 63 ->
  sampling_loop draw inside (fun a => wrap64 (a + 1)) n g acc =
  sampling_loop draw inside (fun a => a + 1) n g acc.
Proof.
  revert g acc. induction n as [|n IH]; intros g acc Hlo Hhi.
  - reflexivity.
  - cbn [sampling_loop].
    destruct (draw g) as [x g1]. destruct (draw g1) as [y g2].
    destruct (inside x y).
    + rewrite wrap64_small by (unfold int64_range; lia).
      apply IH; lia.
    + apply IH; lia.
Qed.
End DrawFacts.

Lemma python_cpu_loop_sampling {rng : Type} (random : rng -> float * rng)
    (n : nat) (g : rng) (acc : Z) :
  python_cpu_loop random n g acc =
  sampling_loop random in_circle (fun a => a + 1) n g acc.
Proof.
  revert g acc. induction n as [|n IH]; intros g acc; cbn.
  - reflexivity.
  - destruct (random g) as [x g1]. destruct (random g1) as [y g2]. apply IH.
Qed.

Lemma machine_code_cpu_loop_sampling {rng : Type} (random : rng -> float * rng)
    (n : nat) (g : rng) (acc : Z) :
  machine_code_cpu_loop random n g acc =
  sampling_loop random in_circle (fun a => wrap64 (a + 1)) n g acc.
Proof.
  revert g acc. induction n as [|n IH]; intros g acc; cbn.
  - reflexivity.
  - destruct (random g) as [x g1]. destruct (random g1) as [y g2]. apply IH.
Qed.

Lemma sampler_loop_sampling {xstate : Type}
    (uniform : xstate -> float * xstate) (n : nat) (st : xstate) (sub_acc : Z) :
  sampler_loop uniform n st sub_acc =
  sampling_loop uniform in_circle32 (fun a => wrap64 (a + 1)) n st sub_acc.
Proof.
  revert st sub_acc. induction n as [|n IH]; intros st sub_acc; cbn.
  - reflexivity.
  - unfold sampler_iteration.
    destruct (uniform st) as [x st1]. destruct (uniform st1) as [y st2].
    apply IH.
Qed.

(** The loop of a kernel thread, for a number of iterations an [int64] can
    hold. *)
Lemma sampler_loop_hits {xstate : Type} (uniform : xstate -> float * xstate)
    (n : nat) (st : xstate) :
  Z.of_nat n < 2 ^ 63 ->
  sampler_loop uniform n st 0 =
  (Z.of_nat (hits uniform in_circle32 st n), advance uniform (2 * n) st).
Proof.
  intros Hn.
  rewrite sampler_loop_sampling, sampling_loop_wrap64 by lia.
  now rewrite sampling_loop_exact.
Qed.

(** ** The kernel under any schedule *)

Lemma lookup_map {A B : Type} (f : A -> B) (l : list A) (i : nat) :
  map f l !! i = f <$> (l !! i).
Proof.
  revert i. induction l as [|a l IH]; intros [|i]; cbn; auto.
Qed.

Lemma iter_rest {A : Type} (f : A -> A) (v : A) (j k : nat) :
  f (Nat.iter j f v) = Nat.iter j f v -> (j <= k)%nat ->
  Nat.iter k f v = Nat.iter j f v.
Proof.
  intros Hfix Hle.
  assert (exists d, k = (d + j)%nat) as [d ->] by (exists (k - j)%nat; lia).
  clear Hle. rewrite Nat.iter_add.
  induction d as [|d IH].
  - reflexivity.
  - rewrite Nat.iter_succ, IH. exact Hfix.
Qed.

Lemma iter_rest_unique {A : Type} (f : A -> A) (v : A) (j k : nat) :
  f (Nat.iter j f v) = Nat.iter j f v ->
  f (Nat.iter k f v) = Nat.iter k f v ->
  Nat.iter j f v = Nat.iter k f v.
Proof.
  intros Hj Hk. destruct (Nat.le_ge_cases j k) as [Hle|Hle].
  - symmetry. now apply iter_rest.
  - now apply iter_rest.
Qed.

Section KernelFacts.
Context {xstate : Type}.
Variable uniform : xstate -> float * xstate.

Lemma view_of_step_same (pos : nat) (c : config) :
  view_of (thread_step uniform pos c) pos = view_step uniform (view_of c pos).
Proof.
  unfold view_of, thread_step, view_step.
  destruct (threads c !! pos) as [[n sub_acc|]|] eqn:Ht; [destruct n as [|rest]|..].
  - cbn. rewrite list_lookup_insert_eq by (eapply lookup_lt_Some; eauto).
    destruct (acc c !! pos) as [cell|] eqn:Ha.
    + rewrite list_lookup_insert_eq by (eapply lookup_lt_Some; eauto).
      reflexivity.
    + rewrite list_insert_ge by (now apply lookup_ge_None).
      now rewrite Ha.
  - destruct (rng_states c !! pos) as [st|] eqn:Hr.
    + destruct (sampler_iteration uniform st sub_acc) as [st' sub_acc'].
      cbn. rewrite !list_lookup_insert_eq by (eapply lookup_lt_Some; eauto).
      reflexivity.
    + now rewrite Ht, Hr.
  - now rewrite Ht.
  - now rewrite Ht.
Qed.

Lemma view_of_step_other (pos q : nat) (c : config) :
  pos <> q -> view_of (thread_step uniform q c) pos = view_of c pos.
Proof.
  intros Hne. unfold view_of, thread_step.
  destruct (threads c !! q) as [[n sub_acc|]|]; [destruct n as [|rest]|..];
    try reflexivity.
  - cbn. now rewrite !list_lookup_insert_ne by auto.
  - destruct (rng_states c !! q) as [st|]; [|reflexivity].
    destruct (sampler_iteration uniform st sub_acc) as [st' sub_acc'].
    cbn. now rewrite !list_lookup_insert_ne by auto.
Qed.

(** After a schedule, a position has taken as many steps as the schedule
    names it. *)
Lemma view_of_run (schedule : list nat) (c : config) (pos : nat) :
  view_of (run_schedule uniform schedule c) pos =
  Nat.iter (count_occ Nat.eq_dec schedule pos) (view_step uniform)
           (view_of c pos).
Proof.
  revert c. induction schedule as [|q schedule IH]; intros c.
  - reflexivity.
  - cbn [run_schedule fold_left count_occ].
    fold (run_schedule uniform schedule (thread_step uniform q c)).
    rewrite IH. destruct (Nat.eq_dec q pos) as [->|Hne].
    + now rewrite view_of_step_same, Nat.iter_succ_r.
    + now rewrite view_of_step_other by auto.
Qed.

Lemma at_rest_fixed (v : view xstate) :
  at_rest v -> view_step uniform v = v.
Proof.
  destruct v as [[[[n sub_acc|]|] entry] cell]; cbn; intros H;
    try reflexivity; contradiction.
Qed.

Lemma finished_at_rest (c : config (xstate := xstate)) (pos : nat) :
  finished c = true -> at_rest (view_of c pos).
Proof.
  unfold finished, view_of. intros Hall.
  destruct (threads c !! pos) as [[n sub_acc|]|] eqn:Ht; cbn; auto.
  rewrite forallb_forall in Hall.
  apply list_elem_of_lookup_2, list_elem_of_In, Hall in Ht. discriminate.
Qed.

Lemma config_ext (c1 c2 : config (xstate := xstate)) :
  (forall pos, view_of c1 pos = view_of c2 pos) -> c1 = c2.
Proof.
  destruct c1 as [r1 a1 t1], c2 as [r2 a2 t2]. unfold view_of. cbn.
  intros H. f_equal; apply list_eq; intros i; specialize (H i); congruence.
Qed.

(** Two schedules that both let every thread finish leave the same
    configuration. *)
Lemma finished_unique (s1 s2 : list nat) (c : config) :
  finished (run_schedule uniform s1 c) = true ->
  finished (run_schedule uniform s2 c) = true ->
  run_schedule uniform s1 c = run_schedule uniform s2 c.
Proof.
  intros H1 H2. apply config_ext. intros pos.
  pose proof (finished_at_rest _ pos H1) as R1.
  pose proof (finished_at_rest _ pos H2) as R2.
  apply (at_rest_fixed _) in R1. apply (at_rest_fixed _) in R2.
  rewrite !view_of_run in *.
  now apply iter_rest_unique.
Qed.

(** A thread that has its generator entry and its cell exits after its
    iterations and one more step, having stored the count of its loop. *)
Lemma thread_run_to_end (n : nat) (st : xstate) (sub_acc : Z) (cell : float) :
  Nat.iter (S n) (view_step uniform)
           (Some (Running n sub_acc), Some st, Some cell) =
  (Some Exited, Some (snd (sampler_loop uniform n st sub_acc)),
   Some (Float32.of_Z (fst (sampler_loop uniform n st sub_acc)))).
Proof.
  revert st sub_acc. induction n as [|n IH]; intros st sub_acc.
  - reflexivity.
  - rewrite Nat.iter_succ_r. cbn [view_step sampler_loop].
    destruct (sampler_iteration uniform st sub_acc) as [st' sub_acc'].
    apply IH.
Qed.
End KernelFacts.

Lemma count_occ_sequential (k a len pos : nat) :
  count_occ Nat.eq_dec (flat_map (fun p => repeat p k) (seq a len)) pos =
  if ((a <=? pos) && (pos <? a + len))%nat then k else 0%nat.
Proof.
  revert a. induction len as [|len IH]; intros a.
  - cbn [seq flat_map count_occ].
    destruct (Nat.leb_spec a pos), (Nat.ltb_spec pos (a + 0)); cbn [andb];
      try reflexivity; lia.
  - cbn [seq flat_map]. rewrite count_occ_app, IH.
    destruct (Nat.eq_dec pos a) as [->|Hne].
    + rewrite count_occ_repeat_eq by reflexivity.
      destruct (Nat.leb_spec (S a) a), (Nat.leb_spec a a),
               (Nat.ltb_spec a (a + S len)); cbn [andb]; lia.
    + rewrite count_occ_repeat_neq by auto.
      destruct (Nat.leb_spec (S a) pos), (Nat.leb_spec a pos),
               (Nat.ltb_spec pos (a + S len)), (Nat.ltb_spec pos (S a + len));
        cbn [andb]; lia.
Qed.

Section LaunchFacts.
Context {xstate : Type}.
Variable uniform : xstate -> float * xstate.

Lemma lookup_spawn (grid : nat) (n : Z) (acc_size pos : nat) :
  spawn grid n acc_size !! pos =
  if (pos <? grid)%nat
  then Some (if (pos <? acc_size)%nat then Running (Z.to_nat n) 0 else Exited)
  else None.
Proof.
  unfold spawn. rewrite lookup_map.
  destruct (pos <? grid)%nat eqn:E.
  - apply Nat.ltb_lt in E. now rewrite lookup_seq_lt.
  - apply Nat.ltb_ge in E. now rewrite lookup_seq_ge.
Qed.

Lemma iter_at_rest (k : nat) (v : view xstate) :
  at_rest v -> Nat.iter k (view_step uniform) v = v.
Proof.
  intros H. apply (iter_rest (view_step uniform) v 0 k); [|lia].
  now apply at_rest_fixed.
Qed.

(** Whatever the schedule, once every thread has finished the cell of a
    thread holds the count of its loop and its generator entry has made
    the draws of that loop. *)
Lemma finished_view (schedule : list nat) (grid : nat)
    (states : list xstate) (n : Z) (cells : list float)
    (pos : nat) (st : xstate) (cell : float) :
  finished (run_schedule uniform schedule (launch_config grid states n cells))
    = true ->
  (pos < grid)%nat -> states !! pos = Some st -> cells !! pos = Some cell ->
  view_of (run_schedule uniform schedule (launch_config grid states n cells))
          pos =
  (Some Exited, Some (snd (sampler_loop uniform (Z.to_nat n) st 0)),
   Some (Float32.of_Z (fst (sampler_loop uniform (Z.to_nat n) st 0)))).
Proof.
  intros Hfin Hpos Hst Hcell.
  pose proof (finished_at_rest _ pos Hfin) as Hrest.
  apply (at_rest_fixed uniform) in Hrest.
  rewrite view_of_run in *.
  assert (Hv0 : view_of (launch_config grid states n cells) pos =
                (Some (Running (Z.to_nat n) 0), Some st, Some cell)).
  { unfold view_of, launch_config. cbn. rewrite lookup_spawn, Hst, Hcell.
    apply lookup_lt_Some in Hcell.
    destruct (pos <? grid)%nat eqn:E1; [|apply Nat.ltb_ge in E1; lia].
    destruct (pos <? length cells)%nat eqn:E2; [|apply Nat.ltb_ge in E2; lia].
    reflexivity. }
  rewrite Hv0 in *.
  rewrite <- (thread_run_to_end uniform (Z.to_nat n) st 0 cell).
  apply iter_rest_unique; [exact Hrest|].
  rewrite thread_run_to_end. reflexivity.
Qed.

(** The threads of a launch do finish: the schedule that runs them one
    after another is long enough, provided each has a generator entry. *)
Lemma sequential_finished (grid : nat) (states : list xstate) (n : Z)
    (cells : list float) :
  (grid <= length states)%nat ->
  finished (run_schedule uniform (sequential_schedule grid n)
              (launch_config grid states n cells)) = true.
Proof.
  intros Hlen. unfold finished. apply forallb_forall. intros t Hin.
  apply list_elem_of_In, list_elem_of_lookup_1 in Hin as [pos Hpos].
  set (c := run_schedule uniform _ _) in *.
  assert (Hview : fst (fst (view_of c pos)) = Some t) by exact Hpos.
  unfold c in Hview. rewrite view_of_run in Hview.
  unfold sequential_schedule in Hview.
  rewrite count_occ_sequential in Hview.
  unfold view_of, launch_config in Hview. cbn [threads rng_states acc] in Hview.
  rewrite lookup_spawn in Hview. cbn [Nat.add Nat.leb andb] in Hview.
  destruct (pos <? grid)%nat eqn:E1.
  - apply Nat.ltb_lt in E1.
    destruct (pos <? length cells)%nat eqn:E2.
    + apply Nat.ltb_lt in E2.
      destruct (lookup_lt_is_Some_2 states pos ltac:(lia)) as [st Hst].
      destruct (lookup_lt_is_Some_2 cells pos E2) as [cell Hcell].
      rewrite Hst, Hcell, thread_run_to_end in Hview.
      cbn in Hview. now inversion Hview.
    + rewrite iter_at_rest in Hview by exact I.
      cbn in Hview. now inversion Hview.
  - cbn in Hview. discriminate.
Qed.
End LaunchFacts.

Section SamplerFacts.
Context {xstate : Type}.
Variable uniform : xstate -> float * xstate.
Variable init : Z -> nat -> xstate.

(** With a generator entry and a cell for every thread of the grid, the
    array after the launch holds every thread's count. *)
Lemma finished_cells (schedule : list nat) (states : list xstate) (n : Z)
    (cells : list float) :
  length cells = length states ->
  finished (run_schedule uniform schedule
              (launch_config (length states) states n cells)) = true ->
  acc (run_schedule uniform schedule
         (launch_config (length states) states n cells)) =
  map (fun st => Float32.of_Z (fst (sampler_loop uniform (Z.to_nat n) st 0)))
      states.
Proof.
  intros Hlen Hfin. apply list_eq. intros pos. rewrite lookup_map.
  destruct (states !! pos) as [st|] eqn:Hst.
  - pose proof (lookup_lt_Some _ _ _ Hst) as Hpos.
    destruct (lookup_lt_is_Some_2 cells pos ltac:(lia)) as [cell Hcell].
    pose proof (finished_view uniform schedule _ states n cells pos st cell
                  Hfin Hpos Hst Hcell) as Hview.
    unfold view_of in Hview. now inversion Hview.
  - pose proof (view_of_run uniform schedule
                  (launch_config (length states) states n cells) pos) as Hview.
    apply lookup_ge_None in Hst.
    rewrite iter_at_rest in Hview.
    + unfold view_of in Hview. inversion Hview as [[Ht Hr Ha]].
      rewrite Ha. cbn. apply lookup_ge_None. lia.
    + unfold view_of, launch_config. cbn. rewrite lookup_spawn.
      destruct (Nat.ltb_spec pos (length states)); [lia|exact I].
Qed.

Lemma Sampler_launch_states (element : Z * Z) :
  Sampler_launch init element =
  launch_config
    (length (create_xoroshiro128p_states init (64 * 24) (fst element)))
    (create_xoroshiro128p_states init (64 * 24) (fst element))
    (snd element / Z.of_nat (64 * 24))
    (np_zeros (64 * 24)).
Proof.
  unfold Sampler_launch, create_xoroshiro128p_states, np_zeros.
  now rewrite length_map, length_seq, length_replicate.
Qed.

(** Whatever the schedule, a finished launch of a sampler leaves the
    counts of its threads in the array. *)
Lemma Sampler_finished_cells (schedule : list nat) (element : Z * Z) :
  finished (run_schedule uniform schedule (Sampler_launch init element))
    = true ->
  acc (run_schedule uniform schedule (Sampler_launch init element)) =
  map Float32.of_Z (Sampler_counts uniform init element).
Proof.
  rewrite Sampler_launch_states. intros Hfin.
  rewrite finished_cells; [|
    unfold create_xoroshiro128p_states, np_zeros;
    now rewrite length_map, length_seq, length_replicate | exact Hfin].
  unfold Sampler_counts, create_xoroshiro128p_states.
  now rewrite !map_map.
Qed.

Lemma Sampler_process_launch (element : Z * Z) :
  Sampler_process uniform init element =
  acc (run_schedule uniform
         (sequential_schedule (24 * 64)
            (snd element / Z.of_nat (64 * 24)))
         (Sampler_launch init element)).
Proof.
  unfold Sampler_process, gpu_monte_carlo_pi_sampler, Sampler_launch, np_zeros.
  cbn [snd fst]. now rewrite length_replicate.
Qed.

Lemma Sampler_sequential_finished (element : Z * Z) :
  finished (run_schedule uniform
              (sequential_schedule (24 * 64)
                 (snd element / Z.of_nat (64 * 24)))
              (Sampler_launch init element)) = true.
Proof.
  unfold Sampler_launch. apply sequential_finished.
  unfold create_xoroshiro128p_states.
  rewrite length_map, length_seq. lia.
Qed.

(** [Sampler.process] yields the counts of its threads as float32. *)
Lemma Sampler_process_cells (element : Z * Z) :
  Sampler_process uniform init element =
  map Float32.of_Z (Sampler_counts uniform init element).
Proof.
  rewrite Sampler_process_launch.
  apply Sampler_finished_cells, Sampler_sequential_finished.
Qed.
End SamplerFacts.

(** ** The work partition *)

Lemma created_elements_length (sampler_count per_sampler : Z) :
  length (created_elements sampler_count per_sampler) = Z.to_nat sampler_count.
Proof. unfold created_elements. now rewrite length_map, length_seq. Qed.

Lemma created_elements_sizes (sampler_count per_sampler : Z) :
  map snd (created_elements sampler_count per_sampler) =
  repeat per_sampler (Z.to_nat sampler_count).
Proof.
  unfold created_elements. rewrite map_map. cbn [snd].
  generalize 0%nat. induction (Z.to_nat sampler_count) as [|n IH]; intros a.
  - reflexivity.
  - cbn [seq map repeat]. now rewrite IH.
Qed.

Lemma created_elements_seeds (sampler_count per_sampler : Z) :
  map fst (created_elements sampler_count per_sampler) =
  map Z.of_nat (seq 0 (Z.to_nat sampler_count)).
Proof. unfold created_elements. now rewrite map_map. Qed.

(** C1, as the notebook has it: for [0 < sampler_count <= sample_size] every
    element created for the samplers carries the same sample size, the floor
    of [sample_size / sampler_count]; the sizes sum to [sample_size] less the
    remainder of the division, which no element receives, and so to
    [sample_size] exactly when [sampler_count] divides it. *)
Theorem partition_sum (sample_size sampler_count : Z) :
  0 < sampler_count <= sample_size ->
  exists per_sampler,
    sample_size_per_sampler sample_size sampler_count = Ok per_sampler /\
    per_sampler = sample_size / sampler_count /\
    length (created_elements sampler_count per_sampler)
      = Z.to_nat sampler_count /\
    Forall (fun element => snd element = per_sampler)
           (created_elements sampler_count per_sampler) /\
    py_sum (map snd (created_elements sampler_count per_sampler))
      = sample_size - sample_size mod sampler_count /\
    (py_sum (map snd (created_elements sampler_count per_sampler)) = sample_size
     <-> sample_size mod sampler_count = 0).
Proof.
  intros [Hpos Hle]. exists (sample_size / sampler_count).
  assert (Hsum : py_sum (map snd (created_elements sampler_count
                                    (sample_size / sampler_count)))
                 = sample_size - sample_size mod sampler_count).
  { rewrite created_elements_sizes, py_sum_repeat, Z2Nat.id by lia.
    pose proof (Z.div_mod sample_size sampler_count). lia. }
  repeat split.
  - unfold sample_size_per_sampler, floordiv.
    destruct (Z.eqb_spec sampler_count 0); [lia|reflexivity].
  - apply created_elements_length.
  - unfold created_elements. apply List.Forall_forall. intros element Hin.
    apply in_map_iff in Hin as [i [<- _]]. reflexivity.
  - exact Hsum.
  - rewrite Hsum. lia.
  - rewrite Hsum. lia.
Qed.

Lemma partition_sum_witness :
  exists per_sampler,
    sample_size_per_sampler notebook_sample_size notebook_sampler_count
      = Ok per_sampler /\
    per_sampler = notebook_sample_size / notebook_sampler_count /\
    length (created_elements notebook_sampler_count per_sampler)
      = Z.to_nat notebook_sampler_count /\
    Forall (fun element => snd element = per_sampler)
           (created_elements notebook_sampler_count per_sampler) /\
    py_sum (map snd (created_elements notebook_sampler_count per_sampler))
      = notebook_sample_size - notebook_sample_size mod notebook_sampler_count /\
    (py_sum (map snd (created_elements notebook_sampler_count per_sampler))
       = notebook_sample_size
     <-> notebook_sample_size mod notebook_sampler_count = 0).
Proof.
  apply (partition_sum notebook_sample_size notebook_sampler_count).
  unfold notebook_sample_size, notebook_sampler_count. lia.
Defined.

(** C1 as claimed fails: three samplers for the notebook's sample size get
    33333333 samples each, the last one included, and one sample of the
    100000000 is dropped. *)
Lemma partition_drops_remainder :
  0 < 3 <= notebook_sample_size /\
  sample_size_per_sampler notebook_sample_size 3 = Ok 33333333 /\
  created_elements 3 33333333 =
    [(0, 33333333); (1, 33333333); (2, 33333333)] /\
  py_sum (map snd (created_elements 3 33333333)) = 99999999 /\
  py_sum (map snd (created_elements 3 33333333)) <> notebook_sample_size.
Proof.
  unfold notebook_sample_size. repeat split; try reflexivity; try lia.
  vm_compute. discriminate.
Qed.

(** The same division splits the work over the threads of a grid; with the
    notebook's constants the plain GPU cell draws 99999744 points and each
    sampler of the pipeline 999936, and both estimates divide by the full
    sample size. *)
Example sub_sample_size_notebook :
  sub_sample_size notebook_sample_size = 65104 /\
  Z.of_nat (threadsperblock * blocks) * sub_sample_size notebook_sample_size
    = 99999744.
Proof. split; reflexivity. Qed.

Example sub_sample_size_per_thread_notebook :
  sample_size_per_sampler notebook_sample_size notebook_sampler_count
    = Ok 1000000 /\
  1000000 / Z.of_nat (64 * 24) = 651 /\
  Z.of_nat (64 * 24) * 651 = 999936.
Proof. repeat split; reflexivity. Qed.

(** ** Seeds *)

(** C8: the seeds of the elements created in a run are the indices
    [0 .. sampler_count - 1] of the elements, hence pairwise distinct; the
    seed of an element depends on nothing but its index. *)
Theorem seeds_distinct (sampler_count per_sampler : Z) :
  NoDup (map fst (created_elements sampler_count per_sampler)) /\
  forall i : nat,
    (i < Z.to_nat sampler_count)%nat ->
    created_elements sampler_count per_sampler !! i
      = Some (Z.of_nat i, per_sampler).
Proof.
  split.
  - rewrite created_elements_seeds.
    apply NoDup_fmap_2; [intros i j; apply Nat2Z.inj|apply NoDup_seq].
  - intros i Hi. unfold created_elements.
    now rewrite lookup_map, lookup_seq_lt.
Qed.

Lemma seeds_distinct_witness :
  NoDup (map fst (created_elements notebook_sampler_count 1000000)) /\
  created_elements notebook_sampler_count 1000000 !! 99%nat
    = Some (99, 1000000).
Proof.
  destruct (seeds_distinct notebook_sampler_count 1000000) as [Hnodup Hseed].
  split; [exact Hnodup|].
  apply (Hseed 99%nat). vm_compute. lia.
Defined.

(** ** Aggregation *)

(** However the runner groups the elements, [CombineGlobally(sum)] returns
    the sum of all of them. *)
Lemma CombineGlobally_sum (p : combine_plan) :
  CombineGlobally py_sum p = py_sum (plan_elements p).
Proof.
  induction p as [elements|first IH1 second IH2]; cbn [CombineGlobally plan_elements].
  - reflexivity.
  - rewrite IH1, IH2, py_sum_app, !py_sum_cons. unfold py_sum at 3. cbn. lia.
Qed.

(** C5: the total that [CombineGlobally(sum)] returns does not depend on the
    order in which the partial counts arrive, nor on how they are grouped:
    two reductions over the same multiset of counts agree. *)
Theorem sum_acc_order_independent (p q : combine_plan) :
  Permutation (plan_elements p) (plan_elements q) ->
  CombineGlobally py_sum p = CombineGlobally py_sum q.
Proof.
  intros Hperm. rewrite !CombineGlobally_sum.
  now apply py_sum_Permutation.
Qed.

Lemma sum_acc_order_independent_witness :
  CombineGlobally py_sum (Merge (Bundle [785; 790]) (Bundle [781])) =
  CombineGlobally py_sum (Merge (Bundle [781]) (Merge (Bundle [790]) (Bundle [785]))).
Proof.
  apply sum_acc_order_independent. cbn [plan_elements app].
  apply Permutation_sym, (Permutation_cons_app [785; 790] []), Permutation_swap.
Defined.

(** ** Native Python and jitted machine code *)

Lemma py_float_of_int64 (z : Z) :
  - 2 ^ 63 <= z <= 2 ^ 63 -> py_float_of_int z = Ok (Float64.of_Z z).
Proof.
  intros Hz. unfold py_float_of_int.
  destruct (Z.leb_spec (2 ^ 1024 - 2 ^ 970) (Z.abs z)) as [Hbig|_];
    [|reflexivity].
  exfalso. assert (Z.abs z <= 2 ^ 63) by lia.
  assert (2 ^ 63 < 2 ^ 1024 - 2 ^ 970) by (vm_compute; reflexivity).
  lia.
Qed.

Lemma python_cpu_loop_hits {rng : Type} (random : rng -> float * rng)
    (n : nat) (g : rng) :
  python_cpu_loop random n g 0 =
  (Z.of_nat (hits random in_circle g n), advance random (2 * n) g).
Proof. now rewrite python_cpu_loop_sampling, sampling_loop_exact. Qed.

(** C9: with [sample_size = 0] the loop of [python_cpu_monte_carlo_pi] makes
    no iteration and no draw, and the division by [sample_size] raises
    [ZeroDivisionError]: no estimate is returned. *)
Theorem python_cpu_zero_division {rng : Type} (random : rng -> float * rng)
    (g : rng) :
  python_cpu_monte_carlo_pi random 0 g = (Raise ZeroDivisionError, g).
Proof. reflexivity. Qed.

(** C10: on every sample size that an [int64] holds and from every state of
    the generator, the jitted function returns what the native one returns
    (the same float or the same exception) and leaves the generator in the
    same state. *)
Theorem machine_code_matches_python {rng : Type} (random : rng -> float * rng)
    (sample_size : Z) (g : rng) :
  int64_range sample_size ->
  machine_code_cpu_monte_carlo_pi random sample_size g =
  python_cpu_monte_carlo_pi random sample_size g.
Proof.
  unfold int64_range. intros Hrange.
  unfold machine_code_cpu_monte_carlo_pi, python_cpu_monte_carlo_pi.
  rewrite machine_code_cpu_loop_sampling, sampling_loop_wrap64 by lia.
  rewrite python_cpu_loop_sampling, sampling_loop_exact.
  pose proof (hits_le random in_circle g (Z.to_nat sample_size)) as Hle.
  unfold py_float_mul_int, py_float_div_int, nb_float_div_int.
  rewrite !py_float_of_int64 by lia.
  reflexivity.
Qed.

Lemma machine_code_matches_python_witness :
  machine_code_cpu_monte_carlo_pi Lcg.random 10 1 =
  python_cpu_monte_carlo_pi Lcg.random 10 1.
Proof.
  apply machine_code_matches_python. unfold int64_range. lia.
Defined.

Example python_cpu_ten_samples :
  python_cpu_monte_carlo_pi Lcg.random 10 1 =
  (Ok (S754_finite false 6305039478318694 (-51)), 1675546029).
Proof. vm_compute. reflexivity. Qed.

(** ** float32 cells that hold whole numbers *)

Lemma iter_pos_nat {A : Type} (f : A -> A) (n : positive) (x : A) :
  SpecFloat.iter_pos f n x = Nat.iter (Pos.to_nat n) f x.
Proof.
  unfold Nat.iter. rewrite <- Pos2Nat.inj_iter. revert x.
  induction n as [n IH|n IH|]; intros x; cbn [SpecFloat.iter_pos Pos.iter].
  - now rewrite !IH, !Pos.iter_swap.
  - now rewrite !IH.
  - reflexivity.
Qed.

Lemma shift_pos_Z (p : positive) (k : nat) :
  Z.pos (shift_pos p k) = Z.pos p * 2 ^ Z.of_nat k.
Proof.
  induction k as [|k IH].
  - cbn. lia.
  - unfold shift_pos in *. rewrite Nat.iter_succ, Pos2Z.inj_xO, IH.
    rewrite Nat2Z.inj_succ, Z.pow_succ_r by lia. lia.
Qed.

Lemma shift_pos_digits (p : positive) (k : nat) :
  Z.pos (digits2_pos (shift_pos p k)) = Z.pos (digits2_pos p) + Z.of_nat k.
Proof.
  induction k as [|k IH].
  - cbn. lia.
  - unfold shift_pos in *. rewrite Nat.iter_succ. cbn [digits2_pos].
    rewrite Pos2Z.inj_succ, IH. lia.
Qed.

Lemma shift_pos_add (p : positive) (j k : nat) :
  shift_pos (shift_pos p j) k = shift_pos p (k + j).
Proof. unfold shift_pos. now rewrite Nat.iter_add. Qed.

Lemma Pos_iter_shift (p : positive) (d : positive) :
  Pos.iter xO p d = shift_pos p (Pos.to_nat d).
Proof. unfold shift_pos, Nat.iter. apply Pos2Nat.inj_iter. Qed.

Lemma shr_shift_pos (p : positive) (t r : nat) :
  Nat.iter t shr_1 (Build_shr_record (Z.pos (shift_pos p (t + r))) false false) =
  Build_shr_record (Z.pos (shift_pos p r)) false false.
Proof.
  induction t as [|t IH].
  - reflexivity.
  - rewrite Nat.iter_succ_r.
    replace (shift_pos p (S t + r)) with (xO (shift_pos p (t + r))) by reflexivity.
    cbn [shr_1 orb]. exact IH.
Qed.

Lemma digits2_pos_bounds (p : positive) :
  2 ^ (Z.pos (digits2_pos p) - 1) <= Z.pos p < 2 ^ Z.pos (digits2_pos p).
Proof.
  induction p as [p IH|p IH|]; cbn [digits2_pos].
  - rewrite Pos2Z.inj_succ, Pos2Z.inj_xI.
    replace (Z.succ (Z.pos (digits2_pos p)) - 1)
      with (Z.succ (Z.pos (digits2_pos p) - 1)) by lia.
    rewrite !Z.pow_succ_r by lia.
    generalize dependent (2 ^ (Z.pos (digits2_pos p) - 1)).
    generalize dependent (2 ^ Z.pos (digits2_pos p)). intros; lia.
  - rewrite Pos2Z.inj_succ. change (Z.pos p~0) with (2 * Z.pos p).
    replace (Z.succ (Z.pos (digits2_pos p)) - 1)
      with (Z.succ (Z.pos (digits2_pos p) - 1)) by lia.
    rewrite !Z.pow_succ_r by lia.
    generalize dependent (2 ^ (Z.pos (digits2_pos p) - 1)).
    generalize dependent (2 ^ Z.pos (digits2_pos p)). intros; lia.
  - cbn. lia.
Qed.

Lemma digits2_pos_le (p : positive) (n : Z) :
  0 <= n -> Z.pos p < 2 ^ n -> Z.pos (digits2_pos p) <= n.
Proof.
  intros Hn Hp. pose proof (digits2_pos_bounds p) as [Hlo _].
  destruct (Z.le_gt_cases (Z.pos (digits2_pos p)) n) as [|Hgt]; [assumption|].
  assert (2 ^ n <= 2 ^ (Z.pos (digits2_pos p) - 1))
    by (apply Z.pow_le_mono_r; lia).
  lia.
Qed.

Lemma digits2_pos_mono (p q : positive) :
  (p <= q)%positive -> Z.pos (digits2_pos p) <= Z.pos (digits2_pos q).
Proof.
  intros Hle. apply digits2_pos_le; [lia|].
  pose proof (digits2_pos_bounds q). lia.
Qed.

(** Rounding a whole number of at most 24 bits, written with trailing zero
    bits, changes nothing. *)
Lemma binary_round_aux_whole (p : positive) (k : nat) :
  Z.pos (digits2_pos p) <= 24 ->
  24 - Z.pos (digits2_pos p) <= Z.of_nat k ->
  binary_round_aux Float32.prec Float32.emax false
    (Z.pos (shift_pos p k)) (- Z.of_nat k) loc_Exact = float32_whole p.
Proof.
  intros Hd Hk. unfold binary_round_aux, float32_whole.
  set (d := Z.pos (digits2_pos p)) in *.
  set (k0 := Z.to_nat (24 - d)).
  assert (Hk0 : Z.of_nat k0 = 24 - d) by (unfold k0; lia).
  assert (Hshift : shr_fexp Float32.prec Float32.emax (Z.pos (shift_pos p k))
                     (- Z.of_nat k) loc_Exact
                   = (Build_shr_record (Z.pos (shift_pos p k0)) false false,
                      - Z.of_nat k0)).
  { unfold shr_fexp, Zdigits2, shr_record_of_loc, fexp, emin,
           Float32.prec, Float32.emax.
    rewrite shift_pos_digits. fold d.
    replace (Z.max (d + Z.of_nat k + - Z.of_nat k - 24) (3 - 128 - 24)
             - - Z.of_nat k) with (Z.of_nat k - Z.of_nat k0) by lia.
    destruct (Z.of_nat k - Z.of_nat k0) as [|t|t] eqn:Ht; try lia.
    - assert (k = k0) by lia. subst k. reflexivity.
    - unfold shr. rewrite iter_pos_nat.
      replace k with (Pos.to_nat t + k0)%nat by lia.
      rewrite shr_shift_pos. f_equal. lia. }
  rewrite Hshift. cbn [shr_m loc_of_shr_record round_nearest_even].
  assert (Hshift0 : shr_fexp Float32.prec Float32.emax (Z.pos (shift_pos p k0))
                      (- Z.of_nat k0) loc_Exact
                    = (Build_shr_record (Z.pos (shift_pos p k0)) false false,
                       - Z.of_nat k0)).
  { unfold shr_fexp, Zdigits2, shr_record_of_loc, fexp, emin,
           Float32.prec, Float32.emax.
    rewrite shift_pos_digits. fold d.
    replace (Z.max (d + Z.of_nat k0 + - Z.of_nat k0 - 24) (3 - 128 - 24)
             - - Z.of_nat k0) with 0 by lia.
    reflexivity. }
  rewrite Hshift0. cbn [shr_m].
  unfold Float32.prec, Float32.emax.
  destruct (Z.leb_spec (- Z.of_nat k0) (128 - 24)); [reflexivity|lia].
Qed.

Lemma float32_of_whole (p : positive) :
  Z.pos p < 2 ^ 24 -> Float32.of_Z (Z.pos p) = float32_whole p.
Proof.
  intros Hp. pose proof (digits2_pos_le p 24 ltac:(lia) Hp) as Hd.
  unfold Float32.of_Z, binary_normalize, binary_round, shl_align, fexp, emin,
         Float32.prec, Float32.emax.
  set (d := Z.pos (digits2_pos p)) in *.
  replace (Z.max (d + 0 - 24) (3 - 128 - 24) - 0) with (d - 24) by lia.
  replace (Z.max (d + 0 - 24) (3 - 128 - 24)) with (d - 24) by lia.
  destruct (d - 24) as [|t|t] eqn:Ht; try lia.
  - apply (binary_round_aux_whole p 0); fold d; lia.
  - rewrite Pos_iter_shift.
    replace (Z.neg t) with (- Z.of_nat (Pos.to_nat t)) by lia.
    apply binary_round_aux_whole; fold d; lia.
Qed.

Lemma shl_align_shift_pos (p : positive) (k K : nat) :
  (k <= K)%nat ->
  fst (shl_align (shift_pos p k) (- Z.of_nat k) (- Z.of_nat K)) = shift_pos p K.
Proof.
  intros Hle. unfold shl_align.
  destruct (- Z.of_nat K - - Z.of_nat k) as [|t|t] eqn:Ht; try lia.
  - cbn [fst]. f_equal. lia.
  - cbn [fst]. rewrite Pos_iter_shift, shift_pos_add. f_equal. lia.
Qed.

Lemma shift_pos_plus (p q : positive) (k : nat) :
  Z.pos (shift_pos p k) + Z.pos (shift_pos q k) = Z.pos (shift_pos (p + q) k).
Proof. rewrite !shift_pos_Z, Pos2Z.inj_add. ring. Qed.

(** Adding two whole numbers whose sum has at most 24 bits is exact. *)
Lemma float32_add_whole (p q : positive) :
  Z.pos p + Z.pos q < 2 ^ 24 ->
  Float32.add (float32_whole p) (float32_whole q) = float32_whole (p + q).
Proof.
  intros Hsum.
  assert (Hds : Z.pos (digits2_pos (p + q)) <= 24)
    by (apply digits2_pos_le; lia).
  pose proof (digits2_pos_mono p (p + q) ltac:(lia)) as Hdp.
  pose proof (digits2_pos_mono q (p + q) ltac:(lia)) as Hdq.
  unfold Float32.add, SFadd, float32_whole, cond_Zopp.
  set (kp := Z.to_nat (24 - Z.pos (digits2_pos p))).
  set (kq := Z.to_nat (24 - Z.pos (digits2_pos q))).
  replace (Z.min (- Z.of_nat kp) (- Z.of_nat kq))
    with (- Z.of_nat (Nat.max kp kq)) by lia.
  rewrite !shl_align_shift_pos by lia.
  rewrite shift_pos_plus.
  unfold binary_normalize, binary_round, shl_align, fexp, emin,
         Float32.prec, Float32.emax.
  rewrite shift_pos_digits.
  set (K := Nat.max kp kq) in *.
  set (ds := Z.pos (digits2_pos (p + q))) in *.
  destruct (Z.max (ds + Z.of_nat K + - Z.of_nat K - 24) (3 - 128 - 24)
            - - Z.of_nat K) as [|t|t] eqn:Ht; try lia.
  - apply binary_round_aux_whole; fold ds; lia.
  - apply binary_round_aux_whole; fold ds; lia.
Qed.

Lemma astype_int_whole (p : positive) :
  Z.pos p < 2 ^ 24 -> astype_int (float32_whole p) = Z.pos p.
Proof.
  intros Hp. unfold astype_int, float32_whole.
  set (k := Z.to_nat (24 - Z.pos (digits2_pos p))).
  rewrite shift_pos_Z.
  assert (Hmag : (if 0 <=? - Z.of_nat k
                  then Z.pos p * 2 ^ Z.of_nat k * 2 ^ (- Z.of_nat k)
                  else Z.pos p * 2 ^ Z.of_nat k / 2 ^ (- - Z.of_nat k))
                 = Z.pos p).
  { destruct (Z.leb_spec 0 (- Z.of_nat k)).
    - replace (Z.of_nat k) with 0 by lia. cbn. lia.
    - rewrite Z.opp_involutive, Z.div_mul; [reflexivity|].
      apply Z.pow_nonzero; lia. }
  rewrite Hmag.
  destruct (Z.leb_spec (- 2 ^ 63) (Z.pos p)), (Z.ltb_spec (Z.pos p) (2 ^ 63));
    cbn [andb]; lia.
Qed.

(** On whole numbers below [2 ^ 24] float32 arithmetic is integer
    arithmetic. *)
Lemma Float32_add_exact (a b : Z) :
  0 <= a -> 0 <= b -> a + b < 2 ^ 24 ->
  Float32.add (Float32.of_Z a) (Float32.of_Z b) = Float32.of_Z (a + b).
Proof.
  intros Ha Hb Hsum. destruct a as [|p|p], b as [|q|q]; try lia.
  - reflexivity.
  - change (0 + Z.pos q) with (Z.pos q).
    rewrite float32_of_whole by lia. reflexivity.
  - rewrite Z.add_0_r. rewrite float32_of_whole by lia. reflexivity.
  - rewrite <- Pos2Z.inj_add. rewrite !float32_of_whole by lia.
    now apply float32_add_whole.
Qed.

Lemma astype_int_exact (a : Z) :
  0 <= a < 2 ^ 24 -> astype_int (Float32.of_Z a) = a.
Proof.
  intros Ha. destruct a as [|p|p]; try lia.
  - reflexivity.
  - rewrite float32_of_whole by lia. apply astype_int_whole. lia.
Qed.

(** Beyond 24 bits a float32 cell rounds the whole number stored in it. *)
Example float32_store_rounds :
  astype_int (Float32.of_Z 16777217) = 16777216.
Proof. reflexivity. Qed.

Lemma py_sum_nonneg (l : list Z) : Forall (fun c => 0 <= c) l -> 0 <= py_sum l.
Proof.
  induction 1 as [|c l Hc _ IH]; [cbn; lia|]. rewrite py_sum_cons. lia.
Qed.

Lemma np_sum_exact (l : list Z) :
  Forall (fun c => 0 <= c) l -> py_sum l < 2 ^ 24 ->
  np_sum (map Float32.of_Z l) = Float32.of_Z (py_sum l).
Proof.
  unfold np_sum. change Float32.zero with (Float32.of_Z 0).
  assert (Hgen : forall a, 0 <= a -> Forall (fun c => 0 <= c) l ->
                           a + py_sum l < 2 ^ 24 ->
                           fold_left Float32.add (map Float32.of_Z l)
                                     (Float32.of_Z a)
                           = Float32.of_Z (a + py_sum l)).
  { induction l as [|c l IH]; intros a Ha Hall Hsum.
    - cbn. now rewrite Z.add_0_r.
    - inversion Hall as [|? ? Hc Hl]; subst.
      rewrite py_sum_cons in Hsum. pose proof (py_sum_nonneg l Hl).
      cbn [map fold_left]. rewrite Float32_add_exact by lia.
      rewrite IH by (auto; lia). rewrite py_sum_cons. f_equal. lia. }
  intros Hall Hsum. now rewrite (Hgen 0) by (auto; lia).
Qed.

(** The count taken from an array of whole numbers is their sum, as long
    as the sum stays below [2 ^ 24]. *)
Lemma in_circle_count_exact (l : list Z) :
  Forall (fun c => 0 <= c) l -> py_sum l < 2 ^ 24 ->
  in_circle_count (map Float32.of_Z l) = py_sum l.
Proof.
  intros Hall Hsum. unfold in_circle_count.
  rewrite np_sum_exact by assumption.
  apply astype_int_exact. pose proof (py_sum_nonneg l Hall). lia.
Qed.

Lemma py_sum_bounds (l : list Z) (q : Z) :
  Forall (fun c => 0 <= c <= q) l ->
  0 <= py_sum l <= Z.of_nat (length l) * q.
Proof.
  induction 1 as [|c l Hc _ IH].
  - cbn. lia.
  - rewrite py_sum_cons. cbn [length]. lia.
Qed.

(** The count that the pipeline takes from the array of a sampler is the
    total of the counters of the sampler's threads, for a sample size
    below [2 ^ 24]. *)
Lemma Sampler_in_circle_count {xstate : Type}
    (uniform : xstate -> float * xstate) (init : Z -> nat -> xstate)
    (element : Z * Z) :
  0 <= snd element < 2 ^ 24 ->
  in_circle_count (Sampler_process uniform init element)
    = py_sum (Sampler_counts uniform init element) /\
  0 <= py_sum (Sampler_counts uniform init element) <= snd element.
Proof.
  intros Hsize.
  assert (Hgrid : Z.of_nat (64 * 24) = 1536) by reflexivity.
  assert (Hall : Forall (fun c => 0 <= c <= snd element / Z.of_nat (64 * 24))
                        (Sampler_counts uniform init element)).
  { unfold Sampler_counts. apply List.Forall_forall. intros c Hin.
    apply in_map_iff in Hin as [pos [<- _]].
    assert (Hq : 0 <= snd element / Z.of_nat (64 * 24) < 2 ^ 63).
    { rewrite Hgrid. split; [apply Z.div_pos; lia|].
      apply Z.le_lt_trans with (snd element); [|lia].
      apply Z.div_le_upper_bound; lia. }
    rewrite sampler_loop_hits by lia. cbn [fst].
    pose proof (hits_le uniform in_circle32
                  (init (fst element) pos)
                  (Z.to_nat (snd element / Z.of_nat (64 * 24)))). lia. }
  assert (Hlen : length (Sampler_counts uniform init element) = (64 * 24)%nat)
    by (unfold Sampler_counts; now rewrite length_map, length_seq).
  assert (Hsum : 0 <= py_sum (Sampler_counts uniform init element)
                   <= snd element).
  { pose proof (py_sum_bounds _ _ Hall) as Hb. rewrite Hlen, Hgrid in Hb.
    pose proof (Z.mul_div_le (snd element) 1536 ltac:(lia)). lia. }
  split; [|exact Hsum].
  rewrite Sampler_process_cells. apply in_circle_count_exact; [|lia].
  eapply Forall_impl; [exact Hall|]. cbn. intros c Hc. lia.
Qed.

(** ** The sampler worker *)

Lemma gpu_monte_carlo_pi_sampler_thread {xstate : Type}
    (uniform : xstate -> float * xstate) (nblocks nthreads : nat)
    (states : list xstate) (n : Z) (cells : list float)
    (pos : nat) (st : xstate) :
  (nblocks * nthreads <= length states)%nat ->
  (pos < nblocks * nthreads)%nat -> (pos < length cells)%nat ->
  states !! pos = Some st ->
  snd (gpu_monte_carlo_pi_sampler uniform nblocks nthreads states n cells) !! pos
    = Some (Float32.of_Z (fst (sampler_loop uniform (Z.to_nat n) st 0))) /\
  fst (gpu_monte_carlo_pi_sampler uniform nblocks nthreads states n cells) !! pos
    = Some (snd (sampler_loop uniform (Z.to_nat n) st 0)).
Proof.
  intros Hstates Hpos Hcells Hst.
  destruct (lookup_lt_is_Some_2 cells pos Hcells) as [cell Hcell].
  pose proof (finished_view uniform _ _ states n cells pos st cell
                (sequential_finished uniform _ states n cells Hstates)
                Hpos Hst Hcell) as Hview.
  unfold view_of in Hview. unfold gpu_monte_carlo_pi_sampler. cbn [fst snd].
  inversion Hview as [[Ht Hr Ha]]. now rewrite Hr, Ha.
Qed.



Example gpu_monte_carlo_pi_sampler_small :
  gpu_monte_carlo_pi_sampler Lcg.uniform_float32 2 2 [1; 2; 3; 4] 3 (np_zeros 5)
  = ([368800899; 1775750268; 1035215989; 294681710],
     [Float32.of_Z 3; Float32.of_Z 2; Float32.of_Z 3; Float32.of_Z 3;
      Float32.zero]).
Proof. vm_compute. reflexivity. Qed.

(** C6: the count a sampling loop ends with is at least 0 and at most its
    sample count: for the loop of [python_cpu_monte_carlo_pi], for the loop
    of a kernel thread, and for the threads of a sampler of the pipeline
    taken together, whose counts stay within the sample size of the
    sampler's element; so does the count the pipeline takes from the
    sampler's float32 array, which is exact for a sample size below
    [2 ^ 24]. *)
Theorem in_circle_count_bounds :
  (forall (rng : Type) (random : rng -> float * rng) (sample_size : Z) (g : rng),
      0 <= sample_size ->
      0 <= fst (python_cpu_loop random (Z.to_nat sample_size) g 0)
        <= sample_size) /\
  (forall (xstate : Type) (uniform : xstate -> float * xstate)
          (sub_sample_size : Z) (st : xstate),
      0 <= sub_sample_size < 2 ^ 63 ->
      0 <= fst (sampler_loop uniform (Z.to_nat sub_sample_size) st 0)
        <= sub_sample_size) /\
  (forall (xstate : Type) (uniform : xstate -> float * xstate)
          (init : Z -> nat -> xstate) (element : Z * Z),
      0 <= snd element < 2 ^ 63 ->
      Sampler_process uniform init element
        = map Float32.of_Z (Sampler_counts uniform init element) /\
      Forall (fun c => 0 <= c <= snd element / Z.of_nat (64 * 24))
             (Sampler_counts uniform init element) /\
      0 <= py_sum (Sampler_counts uniform init element) <= snd element) /\
  (forall (xstate : Type) (uniform : xstate -> float * xstate)
          (init : Z -> nat -> xstate) (element : Z * Z),
      0 <= snd element < 2 ^ 24 ->
      0 <= in_circle_count (Sampler_process uniform init element)
        <= snd element).
Proof.
  assert (Hthread : forall (xstate : Type) (uniform : xstate -> float * xstate)
                           (n : Z) (st : xstate),
             0 <= n < 2 ^ 63 ->
             0 <= fst (sampler_loop uniform (Z.to_nat n) st 0) <= n).
  { intros xstate uniform n st Hn.
    rewrite sampler_loop_hits by lia. cbn [fst].
    pose proof (hits_le uniform in_circle32 st (Z.to_nat n)). lia. }
  split; [|split; [|split]].
  - intros rng random sample_size g Hpos.
    rewrite python_cpu_loop_hits. cbn [fst].
    pose proof (hits_le random in_circle g (Z.to_nat sample_size)). lia.
  - exact Hthread.
  - intros xstate uniform init [seed size]. cbn [snd]. intros Hsize.
    assert (Hgrid : Z.of_nat (64 * 24) = 1536) by reflexivity.
    assert (Hq : 0 <= size / Z.of_nat (64 * 24) < 2 ^ 63).
    { rewrite Hgrid. split; [apply Z.div_pos; lia|].
      apply Z.le_lt_trans with size; [|lia].
      apply Z.div_le_upper_bound; lia. }
    assert (Hall : Forall (fun c => 0 <= c <= size / Z.of_nat (64 * 24))
                          (Sampler_counts uniform init (seed, size))).
    { unfold Sampler_counts. apply List.Forall_forall. intros c Hin.
      apply in_map_iff in Hin as [pos [<- _]]. cbn [fst snd].
      now apply Hthread. }
    split; [apply Sampler_process_cells|]. split; [exact Hall|].
    apply py_sum_bounds in Hall.
    assert (Hlen : length (Sampler_counts uniform init (seed, size))
                   = (64 * 24)%nat)
      by (unfold Sampler_counts; now rewrite length_map, length_seq).
    rewrite Hlen, Hgrid in Hall.
    pose proof (Z.mul_div_le size 1536 ltac:(lia)). lia.
  - intros xstate uniform init element Hsize.
    destruct (Sampler_in_circle_count uniform init element Hsize) as [-> Hsum].
    exact Hsum.
Qed.

Lemma in_circle_count_bounds_witness :
  0 <= fst (python_cpu_loop Lcg.random (Z.to_nat 10) 1 0) <= 10 /\
  0 <= fst (sampler_loop Lcg.uniform_float32 (Z.to_nat 651) 7 0) <= 651 /\
  0 <= py_sum (Sampler_counts Lcg.uniform_float32 Lcg.init (0, 1536 * 2))
    <= 1536 * 2 /\
  0 <= in_circle_count
         (Sampler_process Lcg.uniform_float32 Lcg.init (0, 1536 * 2))
    <= 1536 * 2.
Proof.
  destruct in_circle_count_bounds as [Hpython [Hthread [Hsampler Hcount]]].
  split; [|split; [|split]].
  - apply (Hpython Z Lcg.random 10 1). lia.
  - apply (Hthread Z Lcg.uniform_float32 651 7). lia.
  - apply (Hsampler Z Lcg.uniform_float32 Lcg.init (0, 1536 * 2)). cbn. lia.
  - apply (Hcount Z Lcg.uniform_float32 Lcg.init (0, 1536 * 2)). cbn. lia.
Defined.

(** C3: the in-circle count of a sampler is fixed by its element, the seed
    and the sample size: whatever the order in which the threads of the
    launch take their steps, once all of them have finished the array holds
    the same cells, those that [Sampler.process] yields when the threads run
    one after another; so does the count taken from it. *)
Theorem sampler_deterministic {xstate : Type}
    (uniform : xstate -> float * xstate) (init : Z -> nat -> xstate)
    (element : Z * Z) (s1 s2 : list nat) :
  finished (run_schedule uniform s1 (Sampler_launch init element)) = true ->
  finished (run_schedule uniform s2 (Sampler_launch init element)) = true ->
  acc (run_schedule uniform s1 (Sampler_launch init element))
    = acc (run_schedule uniform s2 (Sampler_launch init element)) /\
  acc (run_schedule uniform s1 (Sampler_launch init element))
    = Sampler_process uniform init element /\
  in_circle_count (acc (run_schedule uniform s1 (Sampler_launch init element)))
    = in_circle_count
        (acc (run_schedule uniform s2 (Sampler_launch init element))).
Proof.
  intros H1 H2.
  rewrite (finished_unique uniform s1 s2 _ H1 H2).
  repeat split.
  rewrite Sampler_process_launch.
  now rewrite (finished_unique uniform s2 _ _ H2
                 (Sampler_sequential_finished uniform init element)).
Qed.

Lemma sampler_deterministic_witness :
  acc (run_schedule Lcg.uniform_float32 (round_robin 1536 2)
         (Sampler_launch Lcg.init (7, 1536)))
    = acc (run_schedule Lcg.uniform_float32 (rev (round_robin 1536 2))
             (Sampler_launch Lcg.init (7, 1536))) /\
  acc (run_schedule Lcg.uniform_float32 (round_robin 1536 2)
         (Sampler_launch Lcg.init (7, 1536)))
    = Sampler_process Lcg.uniform_float32 Lcg.init (7, 1536) /\
  in_circle_count
    (acc (run_schedule Lcg.uniform_float32 (round_robin 1536 2)
            (Sampler_launch Lcg.init (7, 1536))))
    = in_circle_count
        (acc (run_schedule Lcg.uniform_float32 (rev (round_robin 1536 2))
                (Sampler_launch Lcg.init (7, 1536)))).
Proof.
  apply (sampler_deterministic Lcg.uniform_float32 Lcg.init (7, 1536)).
  - vm_compute. reflexivity.
  - vm_compute. reflexivity.
Defined.

(** ** The pipeline *)

Lemma acc_per_sampler_counts {xstate : Type}
    (uniform : xstate -> float * xstate) (init : Z -> nat -> xstate)
    (sampler_count per_sampler : Z) :
  0 <= per_sampler < 2 ^ 24 ->
  acc_per_sampler uniform init sampler_count per_sampler
    = map (fun element => py_sum (Sampler_counts uniform init element))
          (created_elements sampler_count per_sampler).
Proof.
  intros Hper. unfold acc_per_sampler, samplers_per_gpu_thread.
  rewrite map_map. apply map_ext_in. intros element Hin.
  assert (Hsize : snd element = per_sampler).
  { unfold created_elements in Hin.
    apply in_map_iff in Hin as [i [<- _]]. reflexivity. }
  rewrite <- Hsize in Hper.
  exact (proj1 (Sampler_in_circle_count uniform init element Hper)).
Qed.

Example pipeline_run_two_samplers :
  pipeline_run Lcg.uniform_float32 Lcg.init 6144 2
    = {| created := [(0, 3072); (1, 3072)];
         printed := Ok (S754_finite false 7064728712336725 (-51)) |}.
Proof. vm_compute. reflexivity. Qed.

Lemma py_sum_zeros {A : Type} (l : list A) : py_sum (map (fun _ => 0) l) = 0.
Proof.
  induction l as [|a l IH]; [reflexivity|].
  cbn [map]. now rewrite py_sum_cons, IH.
Qed.

(** A sampler with nothing to sample yields a count of 0. *)
Lemma in_circle_count_no_samples {xstate : Type}
    (uniform : xstate -> float * xstate) (init : Z -> nat -> xstate)
    (seed : Z) :
  in_circle_count (Sampler_process uniform init (seed, 0)) = 0.
Proof.
  rewrite Sampler_process_cells.
  assert (Hcounts : Sampler_counts uniform init (seed, 0)
                    = map (fun _ => 0) (seq 0 (64 * 24))).
  { unfold Sampler_counts. apply map_ext. intros pos. cbn [fst snd].
    now rewrite Z.div_0_l by (cbn; lia). }
  rewrite Hcounts. vm_compute. reflexivity.
Qed.

Lemma acc_per_sampler_no_samples {xstate : Type}
    (uniform : xstate -> float * xstate) (init : Z -> nat -> xstate)
    (sampler_count : Z) :
  acc_per_sampler uniform init sampler_count 0
    = map (fun _ => 0) (created_elements sampler_count 0).
Proof.
  unfold acc_per_sampler, samplers_per_gpu_thread, created_elements.
  rewrite !map_map. apply map_ext. intros i.
  exact (in_circle_count_no_samples uniform init (Z.of_nat i)).
Qed.

(** A run whose samplers have nothing to sample: the elements are created
    all the same, and the final formula is applied to a total of 0. *)
Lemma pipeline_run_no_samples {xstate : Type}
    (uniform : xstate -> float * xstate) (init : Z -> nat -> xstate)
    (sample_size sampler_count : Z) :
  sampler_count <> 0 -> sample_size / sampler_count = 0 ->
  pipeline_run uniform init sample_size sampler_count
    = {| created := created_elements sampler_count 0;
         printed := print_pi sample_size 0 |}.
Proof.
  intros Hcount Hper.
  unfold pipeline_run, sample_size_per_sampler, floordiv.
  destruct (Z.eqb_spec sampler_count 0); [contradiction|].
  rewrite Hper. unfold sum_acc. cbn [CombineGlobally].
  now rewrite acc_per_sampler_no_samples, py_sum_zeros.
Qed.

Lemma print_pi_zero (sample_size : Z) :
  0 < sample_size -> print_pi sample_size 0 = Ok Float64.zero.
Proof.
  intros Hpos. unfold print_pi, py_int_truediv.
  destruct (Z.eqb_spec sample_size 0); [lia|].
  destruct sample_size as [|m|m]; try lia. reflexivity.
Qed.

(** C7, as the notebook has it.  No configuration is rejected as such.
    With [sampler_count = 0] the division that sizes the work raises
    [ZeroDivisionError] and no element is created.  With [sample_size = 0]
    and a positive [sampler_count], that many elements are created, with
    nothing to sample, and the run ends in the [ZeroDivisionError] of the
    final formula.  With [sampler_count] above a positive [sample_size],
    that many elements are created, with nothing to sample, and 0.0 is
    printed as the estimate. *)
Theorem degenerate_configurations {xstate : Type}
    (uniform : xstate -> float * xstate) (init : Z -> nat -> xstate)
    (sample_size sampler_count : Z) :
  (sampler_count = 0 ->
     pipeline_run uniform init sample_size sampler_count
       = {| created := []; printed := Raise ZeroDivisionError |}) /\
  (sample_size = 0 -> 0 < sampler_count ->
     pipeline_run uniform init sample_size sampler_count
       = {| created := created_elements sampler_count 0;
            printed := Raise ZeroDivisionError |} /\
     length (created_elements sampler_count 0) = Z.to_nat sampler_count) /\
  (0 < sample_size < sampler_count ->
     pipeline_run uniform init sample_size sampler_count
       = {| created := created_elements sampler_count 0;
            printed := Ok Float64.zero |} /\
     length (created_elements sampler_count 0) = Z.to_nat sampler_count).
Proof.
  split; [|split].
  - intros ->. reflexivity.
  - intros -> Hpos. split; [|apply created_elements_length].
    rewrite pipeline_run_no_samples by (try apply Z.div_0_l; lia).
    reflexivity.
  - intros [Hpos Hlt]. split; [|apply created_elements_length].
    rewrite pipeline_run_no_samples by (try apply Z.div_small; lia).
    now rewrite print_pi_zero.
Qed.

Lemma degenerate_configurations_witness :
  pipeline_run Lcg.uniform_float32 Lcg.init notebook_sample_size 0
    = {| created := []; printed := Raise ZeroDivisionError |} /\
  pipeline_run Lcg.uniform_float32 Lcg.init 0 notebook_sampler_count
    = {| created := created_elements notebook_sampler_count 0;
         printed := Raise ZeroDivisionError |} /\
  pipeline_run Lcg.uniform_float32 Lcg.init 50 notebook_sampler_count
    = {| created := created_elements notebook_sampler_count 0;
         printed := Ok Float64.zero |}.
Proof.
  split; [|split].
  - apply (proj1 (degenerate_configurations Lcg.uniform_float32 Lcg.init
                    notebook_sample_size 0)).
    reflexivity.
  - apply (proj1 (proj2 (degenerate_configurations Lcg.uniform_float32 Lcg.init
                           0 notebook_sampler_count))); [reflexivity|].
    unfold notebook_sampler_count. lia.
  - apply (proj2 (proj2 (degenerate_configurations Lcg.uniform_float32 Lcg.init
                           50 notebook_sampler_count))).
    unfold notebook_sampler_count. lia.
Defined.

(** C7 as claimed fails: with 100 samplers for 50 samples nothing is
    rejected; the 100 elements are created and the estimate 0.0 is
    printed. *)
Lemma more_samplers_than_samples :
  notebook_sampler_count > 50 /\
  length (created (pipeline_run Lcg.uniform_float32 Lcg.init
                     50 notebook_sampler_count)) = 100%nat /\
  printed (pipeline_run Lcg.uniform_float32 Lcg.init 50 notebook_sampler_count)
    = Ok Float64.zero.
Proof.
  split; [reflexivity|].
  rewrite pipeline_run_no_samples
    by (unfold notebook_sampler_count; first [lia|reflexivity]).
  cbn [created printed]. split.
  - now rewrite created_elements_length.
  - apply print_pi_zero. lia.
Qed.

(** * Further properties of the notebook's code *)

(** ** What a launch leaves alone *)

Lemma thread_step_lengths {xstate : Type} (uniform : xstate -> float * xstate)
    (pos : nat) (c : config (xstate := xstate)) :
  length (rng_states (thread_step uniform pos c)) = length (rng_states c) /\
  length (acc (thread_step uniform pos c)) = length (acc c) /\
  length (threads (thread_step uniform pos c)) = length (threads c).
Proof.
  unfold thread_step.
  destruct (threads c !! pos) as [[n sub_acc|]|]; [destruct n as [|rest]|..];
    try (repeat split; reflexivity).
  - cbn. now rewrite !length_insert.
  - destruct (rng_states c !! pos) as [st|]; [|repeat split; reflexivity].
    destruct (sampler_iteration uniform st sub_acc) as [st' sub_acc'].
    cbn. now rewrite !length_insert.
Qed.

Lemma run_schedule_lengths {xstate : Type} (uniform : xstate -> float * xstate)
    (schedule : list nat) (c : config (xstate := xstate)) :
  length (rng_states (run_schedule uniform schedule c)) = length (rng_states c) /\
  length (acc (run_schedule uniform schedule c)) = length (acc c) /\
  length (threads (run_schedule uniform schedule c)) = length (threads c).
Proof.
  revert c. induction schedule as [|q schedule IH]; intros c.
  - repeat split; reflexivity.
  - cbn [run_schedule fold_left].
    fold (run_schedule uniform schedule (thread_step uniform q c)).
    destruct (IH (thread_step uniform q c)) as [Hr [Ha Ht]].
    destruct (thread_step_lengths uniform q c) as [Hr' [Ha' Ht']].
    repeat split; congruence.
Qed.

(** X1: a launch never resizes the arrays, and at every position that is
    outside the grid or outside [acc] it leaves the cell and the generator
    entry as they were, at every moment of every schedule: the guard
    [if pos < acc.size] keeps a thread without a cell from drawing. *)
Theorem launch_frame {xstate : Type} (uniform : xstate -> float * xstate)
    (schedule : list nat) (grid : nat)
    (states : list xstate) (n : Z) (cells : list float) (pos : nat) :
  (grid <= pos \/ length cells <= pos)%nat ->
  acc (run_schedule uniform schedule (launch_config grid states n cells)) !! pos
    = cells !! pos /\
  rng_states (run_schedule uniform schedule
                (launch_config grid states n cells)) !! pos
    = states !! pos /\
  length (acc (run_schedule uniform schedule
                 (launch_config grid states n cells))) = length cells /\
  length (rng_states (run_schedule uniform schedule
                        (launch_config grid states n cells))) = length states.
Proof.
  intros Hout.
  pose proof (view_of_run uniform schedule
                (launch_config grid states n cells) pos) as Hview.
  rewrite iter_at_rest in Hview.
  - unfold view_of in Hview. inversion Hview as [[Ht Hr Ha]].
    destruct (run_schedule_lengths uniform schedule
                (launch_config grid states n cells)) as [Hlr [Hla _]].
    repeat split; assumption.
  - unfold view_of, launch_config. cbn. rewrite lookup_spawn.
    destruct (Nat.ltb_spec pos grid); [|exact I].
    destruct (Nat.ltb_spec pos (length cells)); [lia|exact I].
Qed.

Lemma launch_frame_witness :
  acc (run_schedule Lcg.uniform_float32 [0; 3; 1; 2; 0; 1]%nat
         (launch_config 3 [1; 2; 3; 4] 1 (np_zeros 2))) !! 2%nat
    = np_zeros 2 !! 2%nat /\
  rng_states (run_schedule Lcg.uniform_float32 [0; 3; 1; 2; 0; 1]%nat
                (launch_config 3 [1; 2; 3; 4] 1 (np_zeros 2))) !! 2%nat
    = [1; 2; 3; 4] !! 2%nat /\
  length (acc (run_schedule Lcg.uniform_float32 [0; 3; 1; 2; 0; 1]%nat
                 (launch_config 3 [1; 2; 3; 4] 1 (np_zeros 2))))
    = length (np_zeros 2) /\
  length (rng_states (run_schedule Lcg.uniform_float32 [0; 3; 1; 2; 0; 1]%nat
                        (launch_config 3 [1; 2; 3; 4] 1 (np_zeros 2))))
    = length [1; 2; 3; 4].
Proof.
  apply (launch_frame Lcg.uniform_float32 [0; 3; 1; 2; 0; 1]%nat 3
           [1; 2; 3; 4] 1 (np_zeros 2) 2).
  right. cbn. lia.
Defined.

(** ** Schedules that let every thread finish *)

(** X2: the kernel terminates under every fair interleaving: once the
    schedule has named each thread of the grid [sub_sample_size + 1] times
    (its iterations and the final store), every thread has exited, provided
    each thread has a generator entry; and whatever is scheduled after that
    changes nothing. *)
Theorem fair_schedule_finished {xstate : Type}
    (uniform : xstate -> float * xstate) (schedule more : list nat)
    (grid : nat) (states : list xstate) (n : Z) (cells : list float) :
  (grid <= length states)%nat ->
  (forall pos, (pos < grid)%nat ->
     (S (Z.to_nat n) <= count_occ Nat.eq_dec schedule pos)%nat) ->
  finished (run_schedule uniform schedule (launch_config grid states n cells))
    = true /\
  run_schedule uniform (schedule ++ more) (launch_config grid states n cells)
    = run_schedule uniform schedule (launch_config grid states n cells).
Proof.
  intros Hlen Hfair.
  assert (Hfin : finished (run_schedule uniform schedule
                             (launch_config grid states n cells)) = true).
  { unfold finished. apply forallb_forall. intros t Hin.
    apply list_elem_of_In, list_elem_of_lookup_1 in Hin as [pos Hpos].
    set (c := run_schedule uniform _ _) in *.
    assert (Hview : fst (fst (view_of c pos)) = Some t) by exact Hpos.
    unfold c in Hview. rewrite view_of_run in Hview.
    unfold view_of, launch_config in Hview.
    cbn [threads rng_states acc] in Hview.
    rewrite lookup_spawn in Hview.
    destruct (Nat.ltb_spec pos grid) as [Hgrid|Hgrid].
    - destruct (Nat.ltb_spec pos (length cells)) as [Hcell|Hcell].
      + destruct (lookup_lt_is_Some_2 states pos ltac:(lia)) as [st Hst].
        destruct (lookup_lt_is_Some_2 cells pos Hcell) as [cell Hcell'].
        rewrite Hst, Hcell' in Hview.
        rewrite (iter_rest (view_step uniform) _ (S (Z.to_nat n))) in Hview.
        * rewrite thread_run_to_end in Hview. cbn in Hview.
          now inversion Hview.
        * rewrite thread_run_to_end. reflexivity.
        * now apply Hfair.
      + rewrite iter_at_rest in Hview by exact I.
        cbn in Hview. now inversion Hview.
    - rewrite iter_at_rest in Hview by exact I. cbn in Hview. discriminate. }
  split; [exact Hfin|].
  unfold run_schedule at 1. rewrite fold_left_app.
  fold (run_schedule uniform schedule (launch_config grid states n cells)).
  fold (run_schedule uniform more
          (run_schedule uniform schedule (launch_config grid states n cells))).
  apply config_ext. intros pos. rewrite view_of_run.
  apply iter_at_rest. now apply finished_at_rest.
Qed.

Lemma fair_schedule_finished_witness :
  finished (run_schedule Lcg.uniform_float32 (round_robin 4 3 ++ [2; 0]%nat)
              (launch_config 4 [1; 2; 3; 4] 2 (np_zeros 4))) = true /\
  run_schedule Lcg.uniform_float32 ((round_robin 4 3 ++ [2; 0]%nat) ++ [1; 3]%nat)
    (launch_config 4 [1; 2; 3; 4] 2 (np_zeros 4))
    = run_schedule Lcg.uniform_float32 (round_robin 4 3 ++ [2; 0]%nat)
        (launch_config 4 [1; 2; 3; 4] 2 (np_zeros 4)).
Proof.
  apply fair_schedule_finished.
  - cbn. lia.
  - intros pos Hpos.
    destruct pos as [|[|[|[|pos]]]]; cbn; lia.
Defined.

(** X3: for every launch of the kernel, with any grid and any arrays, the
    arrays left behind do not depend on the interleaving of the threads:
    two schedules that both let every thread finish leave the same counts
    in [acc] and the same generator states, those that
    [gpu_monte_carlo_pi_sampler] returns. *)
Theorem launch_schedule_independent {xstate : Type}
    (uniform : xstate -> float * xstate) (s1 s2 : list nat)
    (nblocks nthreads : nat) (states : list xstate) (n : Z)
    (cells : list float) :
  (nblocks * nthreads <= length states)%nat ->
  finished (run_schedule uniform s1
              (launch_config (nblocks * nthreads) states n cells)) = true ->
  finished (run_schedule uniform s2
              (launch_config (nblocks * nthreads) states n cells)) = true ->
  run_schedule uniform s1 (launch_config (nblocks * nthreads) states n cells)
    = run_schedule uniform s2
        (launch_config (nblocks * nthreads) states n cells) /\
  (rng_states (run_schedule uniform s1
                 (launch_config (nblocks * nthreads) states n cells)),
   acc (run_schedule uniform s1
          (launch_config (nblocks * nthreads) states n cells)))
    = gpu_monte_carlo_pi_sampler uniform nblocks nthreads states n cells.
Proof.
  intros Hlen H1 H2. split.
  - now apply finished_unique.
  - unfold gpu_monte_carlo_pi_sampler.
    now rewrite (finished_unique uniform s1 _ _ H1
                   (sequential_finished uniform _ states n cells Hlen)).
Qed.

Lemma launch_schedule_independent_witness :
  run_schedule Lcg.uniform_float32 (round_robin 4 3)
    (launch_config (2 * 2) [1; 2; 3; 4] 2 (np_zeros 4))
    = run_schedule Lcg.uniform_float32 (rev (round_robin 4 3) ++ [0]%nat)
        (launch_config (2 * 2) [1; 2; 3; 4] 2 (np_zeros 4)) /\
  (rng_states (run_schedule Lcg.uniform_float32 (round_robin 4 3)
                 (launch_config (2 * 2) [1; 2; 3; 4] 2 (np_zeros 4))),
   acc (run_schedule Lcg.uniform_float32 (round_robin 4 3)
          (launch_config (2 * 2) [1; 2; 3; 4] 2 (np_zeros 4))))
    = gpu_monte_carlo_pi_sampler Lcg.uniform_float32 2 2 [1; 2; 3; 4] 2
        (np_zeros 4).
Proof.
  apply launch_schedule_independent.
  - cbn. lia.
  - vm_compute. reflexivity.
  - vm_compute. reflexivity.
Defined.

(** ** Sampling in instalments *)

Lemma sampling_loop_split {G : Type} (draw : G -> float * G)
    (inside : float -> float -> bool) (count : Z -> Z)
    (n m : nat) (g : G) (acc : Z) :
  sampling_loop draw inside count (n + m) g acc =
  sampling_loop draw inside count m
    (snd (sampling_loop draw inside count n g acc))
    (fst (sampling_loop draw inside count n g acc)).
Proof.
  revert g acc. induction n as [|n IH]; intros g acc.
  - reflexivity.
  - cbn [Nat.add sampling_loop].
    destruct (draw g) as [x g1]. destruct (draw g1) as [y g2]. apply IH.
Qed.

Lemma hits_add {G : Type} (draw : G -> float * G)
    (inside : float -> float -> bool) (g : G) (n m : nat) :
  hits draw inside g (n + m) =
  (hits draw inside g n + hits draw inside (advance draw (2 * n) g) m)%nat.
Proof.
  pose proof (sampling_loop_split draw inside (fun a => a + 1) n m g 0) as H.
  rewrite !sampling_loop_exact in H. cbn [fst snd] in H.
  apply (f_equal fst) in H. cbn [fst] in H. lia.
Qed.

(** X4: sampling in instalments.  The loop of [python_cpu_monte_carlo_pi]
    run for [n + m] iterations ends as the loop run for [n] iterations and
    then, from the counter and the generator state reached, for [m] more:
    the count of a long run is the sum of the counts of its parts, each
    taken where the previous one left the generator. *)
Theorem python_cpu_loop_split {rng : Type} (random : rng -> float * rng)
    (n m : nat) (g : rng) :
  python_cpu_loop random (n + m) g 0 =
  python_cpu_loop random m (snd (python_cpu_loop random n g 0))
                  (fst (python_cpu_loop random n g 0)) /\
  fst (python_cpu_loop random (n + m) g 0) =
  fst (python_cpu_loop random n g 0) +
  fst (python_cpu_loop random m (snd (python_cpu_loop random n g 0)) 0).
Proof.
  split.
  - rewrite !python_cpu_loop_sampling. apply sampling_loop_split.
  - rewrite !python_cpu_loop_hits. cbn [fst snd]. rewrite hits_add. lia.
Qed.

(** X5: a second launch of the kernel on the arrays the first one left
    samples fresh points: each thread continues the stream of its generator
    entry where the first launch stopped, and its cell, overwritten, holds
    the count of the second launch alone.  The counts of the two launches
    add up to the count of one launch of the combined length. *)
Theorem second_launch_continues {xstate : Type}
    (uniform : xstate -> float * xstate) (nblocks nthreads : nat)
    (states : list xstate) (n m : Z) (cells : list float)
    (pos : nat) (st : xstate) :
  0 <= n < 2 ^ 63 -> 0 <= m < 2 ^ 63 ->
  (nblocks * nthreads <= length states)%nat ->
  (pos < nblocks * nthreads)%nat -> (pos < length cells)%nat ->
  states !! pos = Some st ->
  snd (launch_twice uniform nblocks nthreads states n m cells) !! pos
    = Some (Float32.of_Z
              (Z.of_nat (hits uniform in_circle32
                           (advance uniform (2 * Z.to_nat n) st)
                           (Z.to_nat m)))) /\
  fst (launch_twice uniform nblocks nthreads states n m cells) !! pos
    = Some (advance uniform (2 * Z.to_nat (n + m)) st) /\
  hits uniform in_circle32 st (Z.to_nat (n + m))
    = (hits uniform in_circle32 st (Z.to_nat n) +
       hits uniform in_circle32 (advance uniform (2 * Z.to_nat n) st)
            (Z.to_nat m))%nat.
Proof.
  intros Hn Hm Hstates Hpos Hcells Hst. unfold launch_twice.
  set (first := gpu_monte_carlo_pi_sampler uniform nblocks nthreads
                  states n cells).
  pose proof (gpu_monte_carlo_pi_sampler_thread uniform nblocks nthreads
                states n cells pos st Hstates Hpos Hcells Hst) as [_ Hr1].
  fold first in Hr1.
  assert (Hlen : length (fst first) = length states /\
                 length (snd first) = length cells).
  { unfold first, gpu_monte_carlo_pi_sampler. cbn [fst snd].
    destruct (run_schedule_lengths uniform
                (sequential_schedule (nblocks * nthreads) n)
                (launch_config (nblocks * nthreads) states n cells))
      as [Hr [Ha _]].
    split; assumption. }
  destruct Hlen as [Hlr Hla].
  pose proof (gpu_monte_carlo_pi_sampler_thread uniform nblocks nthreads
                (fst first) m (snd first) pos _
                ltac:(lia) Hpos ltac:(lia) Hr1) as [Ha2 Hr2].
  rewrite sampler_loop_hits in Hr1, Ha2, Hr2 by lia.
  cbn [fst snd] in Ha2, Hr2.
  rewrite sampler_loop_hits in Ha2, Hr2 by lia. cbn [fst snd] in Ha2, Hr2.
  rewrite Z2Nat.inj_add by lia.
  split; [exact Ha2|]. split.
  - rewrite Hr2. f_equal. rewrite <- advance_add. f_equal. lia.
  - apply hits_add.
Qed.

Lemma second_launch_continues_witness :
  snd (launch_twice Lcg.uniform_float32 2 2 [1; 2; 3; 4] 3 2 (np_zeros 4))
    !! 1%nat
    = Some (Float32.of_Z
              (Z.of_nat (hits Lcg.uniform_float32 in_circle32
                           (advance Lcg.uniform_float32 (2 * Z.to_nat 3) 2)
                           (Z.to_nat 2)))) /\
  fst (launch_twice Lcg.uniform_float32 2 2 [1; 2; 3; 4] 3 2 (np_zeros 4))
    !! 1%nat
    = Some (advance Lcg.uniform_float32 (2 * Z.to_nat (3 + 2)) 2) /\
  hits Lcg.uniform_float32 in_circle32 2 (Z.to_nat (3 + 2))
    = (hits Lcg.uniform_float32 in_circle32 2%Z (Z.to_nat 3) +
       hits Lcg.uniform_float32 in_circle32
            (advance Lcg.uniform_float32 (2 * Z.to_nat 3) 2%Z)
            (Z.to_nat 2))%nat.
Proof.
  apply (second_launch_continues Lcg.uniform_float32 2%nat 2%nat [1; 2; 3; 4]
           3 2 (np_zeros 4) 1%nat 2).
  - lia.
  - lia.
  - cbn. lia.
  - cbn. lia.
  - cbn. lia.
  - reflexivity.
Defined.

(** ** When the native functions raise *)

Lemma shr_1_digits (mrs : shr_record) (p : positive) :
  shr_m mrs = Z.pos p -> 1 < Z.pos (digits2_pos p) ->
  exists p', shr_m (shr_1 mrs) = Z.pos p' /\
             Z.pos (digits2_pos p') = Z.pos (digits2_pos p) - 1.
Proof.
  destruct mrs as [m r s]. cbn [shr_m]. intros -> Hd.
  destruct p as [p|p|]; cbn [shr_1 shr_m digits2_pos] in *.
  - exists p. split; [reflexivity|lia].
  - exists p. split; [reflexivity|lia].
  - lia.
Qed.

Lemma shr_iter_digits (t : nat) (mrs : shr_record) (p : positive) :
  shr_m mrs = Z.pos p -> Z.of_nat t < Z.pos (digits2_pos p) ->
  exists p', shr_m (Nat.iter t shr_1 mrs) = Z.pos p' /\
             Z.pos (digits2_pos p') = Z.pos (digits2_pos p) - Z.of_nat t.
Proof.
  intros Hm. induction t as [|t IH]; intros Ht.
  - exists p. split; [exact Hm|lia].
  - destruct IH as [p1 [Hm1 Hd1]]; [lia|].
    rewrite Nat.iter_succ.
    destruct (shr_1_digits _ p1 Hm1 ltac:(lia)) as [p2 [Hm2 Hd2]].
    exists p2. split; [exact Hm2|lia].
Qed.

(** Shifting a positive mantissa to its exponent in binary64 keeps it
    positive. *)
Lemma shr_fexp_pos (p : positive) (e : Z) (l : location) :
  - 1074 <= e ->
  exists mrs e' p',
    shr_fexp Float64.prec Float64.emax (Z.pos p) e l = (mrs, e') /\
    shr_m mrs = Z.pos p' /\ e <= e'.
Proof.
  intros He. unfold shr_fexp, shr, fexp, emin, Zdigits2,
                    Float64.prec, Float64.emax.
  set (d := Z.pos (digits2_pos p)).
  assert (Hm : shr_m (shr_record_of_loc (Z.pos p) l) = Z.pos p)
    by (destruct l as [|[| |]]; reflexivity).
  destruct (Z.max (d + e - 53) (3 - 1024 - 53) - e) as [|t|t] eqn:Ht.
  - exists (shr_record_of_loc (Z.pos p) l), e, p. repeat split; [exact Hm|lia].
  - rewrite iter_pos_nat.
    destruct (shr_iter_digits (Pos.to_nat t) _ p Hm) as [p' [Hm' _]].
    { fold d. lia. }
    eexists _, _, p'. repeat split; [exact Hm'|lia].
  - exists (shr_record_of_loc (Z.pos p) l), e, p. repeat split; [exact Hm|lia].
Qed.

Lemma binary_round_aux_sign (s : bool) (p : positive) (e : Z) (l : location) :
  - 1074 <= e ->
  has_sign s (binary_round_aux Float64.prec Float64.emax s (Z.pos p) e l).
Proof.
  intros He. unfold binary_round_aux.
  destruct (shr_fexp_pos p e l He) as [mrs1 [e1 [p1 [H1 [Hm1 He1]]]]].
  rewrite H1, Hm1.
  assert (Hround : exists p2,
             round_nearest_even (Z.pos p1) (loc_of_shr_record mrs1) = Z.pos p2).
  { unfold round_nearest_even.
    destruct (loc_of_shr_record mrs1) as [|[| |]].
    - now exists p1.
    - destruct (Z.even (Z.pos p1)); [now exists p1|now exists (p1 + 1)%positive].
    - now exists p1.
    - now exists (p1 + 1)%positive. }
  destruct Hround as [p2 ->].
  destruct (shr_fexp_pos p2 e1 loc_Exact ltac:(lia))
    as [mrs2 [e2 [p3 [H2 [Hm2 _]]]]].
  rewrite H2, Hm2.
  destruct (e2 <=? Float64.emax - Float64.prec); reflexivity.
Qed.

Lemma binary_round_sign (s : bool) (p : positive) :
  has_sign s (binary_round Float64.prec Float64.emax s p 0).
Proof.
  unfold binary_round, shl_align, fexp, emin, Float64.prec, Float64.emax.
  destruct (Z.max (Z.pos (digits2_pos p) + 0 - 53) (3 - 1024 - 53) - 0)
    as [|t|t] eqn:Ht;
    apply (binary_round_aux_sign s); lia.
Qed.

(** A non-zero integer converts to a float of its sign. *)
Lemma Float64_of_Z_sign (z : Z) :
  z <> 0 -> has_sign (z <? 0) (Float64.of_Z z).
Proof.
  intros Hz. unfold Float64.of_Z, binary_normalize.
  destruct z as [|p|p]; [contradiction|..]; apply binary_round_sign.
Qed.

Lemma has_sign_not_zero (s : bool) (x : float) :
  has_sign s x -> is_zero x = false.
Proof. destruct x; cbn; intros H; try reflexivity; contradiction. Qed.

(** X6: [python_cpu_monte_carlo_pi] and its jitted twin raise
    [ZeroDivisionError] for the sample size 0 and for no other: on every
    other sample size (one that a float, respectively an [int64], can hold)
    they return a float. *)
Theorem native_raises_only_on_zero {rng : Type} (random : rng -> float * rng)
    (sample_size : Z) (g : rng) :
  (Z.abs sample_size < 2 ^ 1024 - 2 ^ 970 ->
   (fst (python_cpu_monte_carlo_pi random sample_size g)
      = Raise ZeroDivisionError <-> sample_size = 0) /\
   (sample_size <> 0 ->
    exists x, fst (python_cpu_monte_carlo_pi random sample_size g) = Ok x)) /\
  (int64_range sample_size ->
   (fst (machine_code_cpu_monte_carlo_pi random sample_size g)
      = Raise ZeroDivisionError <-> sample_size = 0) /\
   (sample_size <> 0 ->
    exists x,
      fst (machine_code_cpu_monte_carlo_pi random sample_size g) = Ok x)).
Proof.
  split.
  - intros Hbound.
    assert (Hok : sample_size <> 0 ->
              exists x, fst (python_cpu_monte_carlo_pi random sample_size g)
                        = Ok x).
    { intros Hnz. unfold python_cpu_monte_carlo_pi.
      rewrite python_cpu_loop_hits. cbn [fst].
      pose proof (hits_le random in_circle g (Z.to_nat sample_size)) as Hle.
      unfold py_float_mul_int, py_float_div_int, py_float_of_int.
      destruct (Z.leb_spec (2 ^ 1024 - 2 ^ 970)
                  (Z.abs (Z.of_nat (hits random in_circle g
                                      (Z.to_nat sample_size))))); [lia|].
      destruct (Z.leb_spec (2 ^ 1024 - 2 ^ 970) (Z.abs sample_size)); [lia|].
      cbn. rewrite (has_sign_not_zero _ _ (Float64_of_Z_sign _ Hnz)).
      eexists. reflexivity. }
    split; [|exact Hok]. split.
    + intros Hraise. destruct (Z.eq_dec sample_size 0) as [|Hnz]; [assumption|].
      destruct (Hok Hnz) as [x Hx]. congruence.
    + intros ->. reflexivity.
  - intros Hrange. unfold int64_range in Hrange.
    assert (Hok : sample_size <> 0 ->
              exists x,
                fst (machine_code_cpu_monte_carlo_pi random sample_size g)
                = Ok x).
    { intros Hnz. unfold machine_code_cpu_monte_carlo_pi.
      destruct (machine_code_cpu_loop random (Z.to_nat sample_size) g 0)
        as [acc g'].
      cbn [fst]. unfold nb_float_div_int.
      rewrite (has_sign_not_zero _ _ (Float64_of_Z_sign _ Hnz)).
      eexists. reflexivity. }
    split; [|exact Hok]. split.
    + intros Hraise. destruct (Z.eq_dec sample_size 0) as [|Hnz]; [assumption|].
      destruct (Hok Hnz) as [x Hx]. congruence.
    + intros ->. reflexivity.
Qed.

Lemma native_raises_only_on_zero_witness :
  (exists x, fst (python_cpu_monte_carlo_pi Lcg.random 10 1) = Ok x) /\
  (exists x, fst (machine_code_cpu_monte_carlo_pi Lcg.random 10 1) = Ok x).
Proof.
  destruct (native_raises_only_on_zero Lcg.random 10 1) as [Hpy Hjit].
  split.
  - apply Hpy; [vm_compute; reflexivity|lia].
  - apply Hjit; [unfold int64_range; lia|lia].
Defined.

(** X7: a negative sample size is not rejected: the loop makes no iteration
    and no draw, and [4.0 * 0 / sample_size] is returned, the float
    [-0.0]. *)
Theorem python_cpu_negative_sample_size {rng : Type}
    (random : rng -> float * rng) (sample_size : Z) (g : rng) :
  - (2 ^ 1024 - 2 ^ 970) < sample_size < 0 ->
  python_cpu_monte_carlo_pi random sample_size g = (Ok (S754_zero true), g).
Proof.
  intros Hneg. unfold python_cpu_monte_carlo_pi.
  destruct sample_size as [|p|p]; try lia.
  cbn [Z.to_nat python_cpu_loop]. f_equal.
  unfold py_float_mul_int, py_float_div_int, py_float_of_int.
  destruct (Z.leb_spec (2 ^ 1024 - 2 ^ 970) (Z.abs 0)) as [H0|_].
  { exfalso. revert H0. vm_compute. intros H0. now apply H0. }
  destruct (Z.leb_spec (2 ^ 1024 - 2 ^ 970) (Z.abs (Z.neg p))); [lia|].
  cbn [mbind result_bind].
  pose proof (Float64_of_Z_sign (Z.neg p) ltac:(lia)) as Hsign.
  change (Z.neg p <? 0) with true in Hsign.
  destruct (Float64.of_Z (Z.neg p)) as [s|s| |s m e]; cbn in Hsign;
    try contradiction; subst s; reflexivity.
Qed.

Lemma python_cpu_negative_sample_size_witness :
  python_cpu_monte_carlo_pi Lcg.random (- 3) 1 = (Ok (S754_zero true), 1).
Proof.
  apply python_cpu_negative_sample_size. split; [vm_compute; reflexivity|lia].
Defined.

(** ** The order of float32 additions *)

Lemma float32_sum_exact (t : sum_order) :
  Forall (fun c => 0 <= c) (order_cells t) ->
  py_sum (order_cells t) < 2 ^ 24 ->
  float32_sum t = Float32.of_Z (py_sum (order_cells t)).
Proof.
  induction t as [c|t1 IH1 t2 IH2]; cbn [order_cells float32_sum].
  - intros _ _. reflexivity.
  - rewrite Forall_app, py_sum_app. intros [H1 H2] Hsum.
    pose proof (py_sum_nonneg _ H1). pose proof (py_sum_nonneg _ H2).
    rewrite IH1, IH2 by (auto; lia).
    apply Float32_add_exact; lia.
Qed.

(** X8: on an array of whole counts whose total is below [2 ^ 24] the
    float32 sum does not depend on the order or the grouping of the
    additions: every way of adding the cells up, numpy's pairwise one
    included, gives the float32 that [np_sum] gives, and read back as an
    integer it is the exact total. *)
Theorem float32_sum_any_order (t : sum_order) (l : list Z) :
  Forall (fun c => 0 <= c) l -> py_sum l < 2 ^ 24 ->
  Permutation (order_cells t) l ->
  float32_sum t = np_sum (map Float32.of_Z l) /\
  astype_int (float32_sum t) = py_sum l.
Proof.
  intros Hall Hsum Hperm.
  assert (Hall' : Forall (fun c => 0 <= c) (order_cells t)).
  { apply List.Forall_forall. intros c Hin.
    rewrite List.Forall_forall in Hall. apply Hall.
    eapply Permutation_in; eassumption. }
  rewrite <- (py_sum_Permutation _ _ Hperm) in *.
  rewrite float32_sum_exact by assumption.
  rewrite np_sum_exact
    by (try assumption; now rewrite <- (py_sum_Permutation _ _ Hperm)).
  split.
  - f_equal. now apply py_sum_Permutation.
  - apply astype_int_exact. pose proof (py_sum_nonneg _ Hall'). lia.
Qed.

Lemma float32_sum_any_order_witness :
  float32_sum (Plus (Plus (Cell 651) (Cell 0)) (Plus (Cell 7) (Cell 512)))
    = np_sum (map Float32.of_Z [512; 0; 651; 7]) /\
  astype_int
    (float32_sum (Plus (Plus (Cell 651) (Cell 0)) (Plus (Cell 7) (Cell 512))))
    = py_sum [512; 0; 651; 7].
Proof.
  apply float32_sum_any_order.
  - repeat constructor; lia.
  - vm_compute. reflexivity.
  - cbn [order_cells app].
    apply Permutation_sym.
    apply (Permutation_cons_app [651; 0; 7] []). cbn [app].
    apply perm_swap.
Defined.

(** ** The points that are sampled *)

Lemma spawn_points (n : Z) (acc_size a len : nat) :
  py_sum (map (fun t => Z.of_nat (thread_iterations t))
              (map (fun pos => if (pos <? acc_size)%nat
                               then Running (Z.to_nat n) 0
                               else Exited)
                   (seq a len)))
  = Z.of_nat (Nat.min (a + len) acc_size - Nat.min a acc_size)
    * Z.of_nat (Z.to_nat n).
Proof.
  revert a. induction len as [|len IH]; intros a.
  - cbn [seq map]. replace (a + 0)%nat with a by lia.
    unfold py_sum. cbn. lia.
  - cbn [seq map]. rewrite py_sum_cons, IH.
    destruct (Nat.ltb_spec a acc_size); cbn [thread_iterations]; nia.
Qed.

Lemma points_launch_config {xstate : Type} (grid : nat)
    (states : list xstate) (n : Z) (cells : list float) :
  points_to_sample (launch_config grid states n cells)
  = Z.of_nat (Nat.min grid (length cells)) * Z.of_nat (Z.to_nat n).
Proof.
  unfold points_to_sample, launch_config, spawn. cbn [threads].
  rewrite spawn_points. f_equal. lia.
Qed.

Lemma points_Sampler_launch {xstate : Type} (init : Z -> nat -> xstate)
    (element : Z * Z) :
  0 <= snd element ->
  points_to_sample (Sampler_launch init element)
  = 1536 * (snd element / 1536).
Proof.
  intros Hsize. unfold Sampler_launch. rewrite points_launch_config.
  unfold np_zeros. rewrite !length_replicate.
  replace (Z.of_nat (64 * 24)) with 1536 by reflexivity.
  replace (Z.of_nat (Nat.min (24 * 64) (64 * 24))) with 1536 by reflexivity.
  rewrite Z2Nat.id by (apply Z.div_pos; lia). reflexivity.
Qed.

Lemma py_sum_map_const {A : Type} (l : list A) (x : Z) :
  py_sum (map (fun _ => x) l) = Z.of_nat (length l) * x.
Proof.
  induction l as [|a l IH]; [reflexivity|].
  cbn [map length]. rewrite py_sum_cons, IH. lia.
Qed.

(** X9: the points that are really sampled.  Each sampler of the pipeline
    gives every one of its 1536 threads the floor of its sample size over
    1536, so for a positive [sampler_count] the samplers together sample
    [sample_size] less its remainder modulo [1536 * sampler_count]: never
    more than [sample_size], and all of it exactly when
    [1536 * sampler_count] divides it.  The plain GPU cell samples
    [sample_size] less its remainder modulo 1536. *)
Theorem points_sampled {xstate : Type} (init : Z -> nat -> xstate)
    (sample_size sampler_count : Z) :
  0 <= sample_size -> 0 < sampler_count ->
  pipeline_points init sampler_count (sample_size / sampler_count)
    = sample_size - sample_size mod (1536 * sampler_count) /\
  pipeline_points init sampler_count (sample_size / sampler_count)
    <= sample_size /\
  (pipeline_points init sampler_count (sample_size / sampler_count)
     = sample_size <-> sample_size mod (1536 * sampler_count) = 0) /\
  points_to_sample (gpu_cell_launch init sample_size)
    = sample_size - sample_size mod 1536.
Proof.
  intros Hsize Hcount.
  assert (Hpipe : pipeline_points init sampler_count
                    (sample_size / sampler_count)
                  = sample_size - sample_size mod (1536 * sampler_count)).
  { unfold pipeline_points, created_elements. rewrite map_map.
    rewrite (map_ext _ (fun _ => 1536 * (sample_size / sampler_count / 1536))).
    - rewrite py_sum_map_const, length_seq, Z2Nat.id by lia.
      rewrite Z.div_div by lia.
      pose proof (Z.div_mod sample_size (1536 * sampler_count) ltac:(lia)).
      replace (sampler_count * 1536) with (1536 * sampler_count) by lia.
      lia.
    - intros i. apply points_Sampler_launch. cbn [snd].
      apply Z.div_pos; lia. }
  pose proof (Z.mod_pos_bound sample_size (1536 * sampler_count) ltac:(lia)).
  split; [exact Hpipe|]. split; [lia|]. split; [lia|].
  unfold gpu_cell_launch. rewrite points_launch_config.
  unfold np_zeros, sub_sample_size, threadsperblock, blocks.
  rewrite length_replicate.
  replace (Z.of_nat (64 * 24)) with 1536 by reflexivity.
  replace (Z.of_nat (Nat.min (24 * 64) (64 * 24))) with 1536 by reflexivity.
  rewrite Z2Nat.id by (apply Z.div_pos; lia).
  pose proof (Z.div_mod sample_size 1536 ltac:(lia)). lia.
Qed.

Lemma points_sampled_witness :
  pipeline_points Lcg.init notebook_sampler_count
    (notebook_sample_size / notebook_sampler_count) = 99993600 /\
  points_to_sample (gpu_cell_launch Lcg.init notebook_sample_size) = 99999744.
Proof.
  destruct (points_sampled Lcg.init notebook_sample_size notebook_sampler_count)
    as [Hpipe [_ [_ Hcell]]].
  - unfold notebook_sample_size. lia.
  - unfold notebook_sampler_count. lia.
  - split.
    + rewrite Hpipe. reflexivity.
    + rewrite Hcell. reflexivity.
Defined.

(** ** Samplers with too little to sample *)

Lemma in_circle_count_few_samples {xstate : Type}
    (uniform : xstate -> float * xstate) (init : Z -> nat -> xstate)
    (element : Z * Z) :
  0 <= snd element < 1536 ->
  Sampler_counts uniform init element = map (fun _ => 0) (seq 0 (64 * 24)) /\
  in_circle_count (Sampler_process uniform init element) = 0.
Proof.
  intros Hsize.
  assert (Hcounts : Sampler_counts uniform init element
                    = map (fun _ => 0) (seq 0 (64 * 24))).
  { unfold Sampler_counts. apply map_ext. intros pos.
    replace (Z.of_nat (64 * 24)) with 1536 by reflexivity.
    now rewrite Z.div_small by lia. }
  split; [exact Hcounts|].
  rewrite Sampler_process_cells, Hcounts. vm_compute. reflexivity.
Qed.

(** X10: a sampler that is given fewer than 1536 samples gives each of its
    threads none, so whenever [sample_size // sampler_count] is below 1536
    the pipeline creates its elements, samples nothing and prints the
    estimate 0.0. *)
Theorem too_few_samples_per_sampler {xstate : Type}
    (uniform : xstate -> float * xstate) (init : Z -> nat -> xstate)
    (sample_size sampler_count : Z) :
  0 < sample_size -> 0 < sampler_count ->
  sample_size / sampler_count < 1536 ->
  pipeline_run uniform init sample_size sampler_count
    = {| created := created_elements sampler_count
                      (sample_size / sampler_count);
         printed := Ok Float64.zero |} /\
  acc_per_sampler uniform init sampler_count (sample_size / sampler_count)
    = map (fun _ => 0)
          (created_elements sampler_count (sample_size / sampler_count)) /\
  pipeline_points init sampler_count (sample_size / sampler_count) = 0.
Proof.
  intros Hsize Hcount Hsmall.
  assert (Hper : 0 <= sample_size / sampler_count) by (apply Z.div_pos; lia).
  assert (Hacc : acc_per_sampler uniform init sampler_count
                   (sample_size / sampler_count)
                 = map (fun _ => 0)
                       (created_elements sampler_count
                          (sample_size / sampler_count))).
  { unfold acc_per_sampler, samplers_per_gpu_thread, created_elements.
    rewrite !map_map. apply map_ext. intros i.
    exact (proj2 (in_circle_count_few_samples uniform init
                    (Z.of_nat i, sample_size / sampler_count)
                    (conj Hper Hsmall))). }
  split; [|split; [exact Hacc|]].
  - unfold pipeline_run, sample_size_per_sampler, floordiv.
    destruct (Z.eqb_spec sampler_count 0); [lia|].
    unfold sum_acc. cbn [CombineGlobally].
    now rewrite Hacc, py_sum_zeros, print_pi_zero.
  - unfold pipeline_points, created_elements. rewrite map_map.
    rewrite (map_ext _ (fun _ => 0)); [apply py_sum_zeros|].
    intros i. rewrite points_Sampler_launch by exact Hper.
    cbn [snd]. now rewrite Z.div_small by lia.
Qed.

Lemma too_few_samples_per_sampler_witness :
  pipeline_run Lcg.uniform_float32 Lcg.init 100000 notebook_sampler_count
    = {| created := created_elements notebook_sampler_count
                      (100000 / notebook_sampler_count);
         printed := Ok Float64.zero |}.
Proof.
  apply (too_few_samples_per_sampler Lcg.uniform_float32 Lcg.init
           100000 notebook_sampler_count).
  - lia.
  - unfold notebook_sampler_count. lia.
  - vm_compute. reflexivity.
Defined.

(** ** The aggregated count *)

Lemma py_sum_map_bounds {A : Type} (f g : A -> Z) (l : list A) :
  (forall x, In x l -> 0 <= f x <= g x) ->
  0 <= py_sum (map f l) <= py_sum (map g l).
Proof.
  induction l as [|a l IH]; intros Hfg.
  - cbn. lia.
  - cbn [map]. rewrite !py_sum_cons.
    pose proof (Hfg a (or_introl eq_refl)).
    assert (0 <= py_sum (map f l) <= py_sum (map g l))
      by (apply IH; intros x Hx; apply Hfg; now right).
    lia.
Qed.

(** X11: the total that the pipeline divides by [sample_size] is a count of
    sampled points: for a positive [sampler_count] and a sample size per
    sampler below [2 ^ 24], [sum_acc] lies between 0 and the number of
    points sampled, which is at most [sample_size]. *)
Theorem sum_acc_bounds {xstate : Type}
    (uniform : xstate -> float * xstate) (init : Z -> nat -> xstate)
    (sample_size sampler_count : Z) :
  0 <= sample_size -> 0 < sampler_count ->
  sample_size / sampler_count < 2 ^ 24 ->
  0 <= sum_acc uniform init sampler_count (sample_size / sampler_count)
    <= pipeline_points init sampler_count (sample_size / sampler_count) /\
  pipeline_points init sampler_count (sample_size / sampler_count)
    <= sample_size.
Proof.
  intros Hsize Hcount Hsmall.
  assert (Hper : 0 <= sample_size / sampler_count) by (apply Z.div_pos; lia).
  split.
  - unfold sum_acc. cbn [CombineGlobally].
    rewrite acc_per_sampler_counts by lia.
    unfold pipeline_points. apply py_sum_map_bounds.
    intros element Hin.
    assert (Hel : snd element = sample_size / sampler_count).
    { unfold created_elements in Hin.
      apply in_map_iff in Hin as [i [<- _]]. reflexivity. }
    rewrite points_Sampler_launch by lia.
    assert (Hall : Forall (fun c => 0 <= c <= snd element / 1536)
                          (Sampler_counts uniform init element)).
    { unfold Sampler_counts. apply List.Forall_forall. intros c Hc.
      apply in_map_iff in Hc as [pos [<- _]].
      replace (Z.of_nat (64 * 24)) with 1536 by reflexivity.
      assert (0 <= snd element / 1536 < 2 ^ 63).
      { split; [apply Z.div_pos; lia|].
        apply Z.le_lt_trans with (snd element); [|lia].
        apply Z.div_le_upper_bound; lia. }
      rewrite sampler_loop_hits by lia. cbn [fst].
      pose proof (hits_le uniform in_circle32 (init (fst element) pos)
                    (Z.to_nat (snd element / 1536))). lia. }
    apply py_sum_bounds in Hall.
    assert (Hlen : length (Sampler_counts uniform init element)
                   = (64 * 24)%nat)
      by (unfold Sampler_counts; now rewrite length_map, length_seq).
    rewrite Hlen in Hall.
    replace (Z.of_nat (64 * 24)) with 1536 in Hall by reflexivity.
    lia.
  - unfold pipeline_points, created_elements. rewrite map_map.
    rewrite (map_ext _ (fun _ => 1536 * (sample_size / sampler_count / 1536))).
    + rewrite py_sum_map_const, length_seq, Z2Nat.id by lia.
      pose proof (Z.mul_div_le (sample_size / sampler_count) 1536 ltac:(lia)).
      pose proof (Z.mul_div_le sample_size sampler_count ltac:(lia)).
      nia.
    + intros i. apply points_Sampler_launch. exact Hper.
Qed.

Lemma sum_acc_bounds_witness :
  0 <= sum_acc Lcg.uniform_float32 Lcg.init 2 (6144 / 2)
    <= pipeline_points Lcg.init 2 (6144 / 2) /\
  pipeline_points Lcg.init 2 (6144 / 2) <= 6144.
Proof.
  apply (sum_acc_bounds Lcg.uniform_float32 Lcg.init 6144 2).
  - lia.
  - lia.
  - vm_compute. reflexivity.
Defined.

(** ** The estimate *)

(** Widening a float32 that holds a whole number below [2 ^ 24] gives the
    float64 of that number. *)
Lemma to_float64_whole (a : Z) :
  0 <= a < 2 ^ 24 -> Float32.to_float64 (Float32.of_Z a) = Float64.of_Z a.
Proof.
  intros Ha. destruct a as [|p|p]; try lia; [reflexivity|].
  rewrite float32_of_whole by lia.
  pose proof (digits2_pos_le p 24 ltac:(lia) ltac:(lia)) as Hd.
  unfold float32_whole, Float32.to_float64, Float64.of_Z, binary_normalize,
         binary_round, shl_align, fexp, emin, Float64.prec, Float64.emax.
  rewrite shift_pos_digits.
  set (d := Z.pos (digits2_pos p)) in *.
  set (k := Z.to_nat (24 - d)).
  assert (Hk : Z.of_nat k = 24 - d) by (unfold k; lia).
  replace (Z.max (d + Z.of_nat k + - Z.of_nat k - 53) (3 - 1024 - 53)
           - - Z.of_nat k) with (- 29) by lia.
  replace (Z.max (d + Z.of_nat k + - Z.of_nat k - 53) (3 - 1024 - 53))
    with (d - 53) by lia.
  replace (Z.max (d + 0 - 53) (3 - 1024 - 53) - 0) with (d - 53) by lia.
  replace (Z.max (d + 0 - 53) (3 - 1024 - 53)) with (d - 53) by lia.
  destruct (d - 53) as [|t|t] eqn:Ht; try lia.
  cbv match.
  rewrite !Pos_iter_shift, shift_pos_add.
  do 2 f_equal. f_equal. lia.
Qed.

Lemma Forall_Permutation_nonneg (l1 l2 : list Z) :
  Permutation l1 l2 ->
  Forall (fun c => 0 <= c) l2 -> Forall (fun c => 0 <= c) l1.
Proof.
  intros Hperm Hall. apply List.Forall_forall. intros c Hin.
  rewrite List.Forall_forall in Hall. apply Hall.
  eapply Permutation_in; eassumption.
Qed.

(** On whole counts whose total is below [2 ^ 24], [calculate_pi] applies
    the formula to the exact total. *)
Lemma calculate_pi_exact (counts : list Z) (sample_size : Z) :
  Forall (fun c => 0 <= c) counts -> py_sum counts < 2 ^ 24 ->
  calculate_pi (map Float32.of_Z counts) sample_size
    = nb_float_div_int
        (Float64.mul Float64.four (Float64.of_Z (py_sum counts))) sample_size.
Proof.
  intros Hall Hsum. unfold calculate_pi, calculate_pi_of_sum.
  rewrite np_sum_exact by assumption.
  rewrite to_float64_whole; [reflexivity|].
  pose proof (py_sum_nonneg _ Hall). lia.
Qed.

Lemma Sampler_counts_bounds {xstate : Type}
    (uniform : xstate -> float * xstate) (init : Z -> nat -> xstate)
    (element : Z * Z) :
  0 <= snd element < 2 ^ 24 ->
  Forall (fun c => 0 <= c) (Sampler_counts uniform init element) /\
  py_sum (Sampler_counts uniform init element) < 2 ^ 24.
Proof.
  intros Hsize. split.
  - unfold Sampler_counts. apply List.Forall_forall. intros c Hin.
    apply in_map_iff in Hin as [pos [<- _]].
    assert (Hq : 0 <= snd element / Z.of_nat (64 * 24) < 2 ^ 63).
    { change (Z.of_nat (64 * 24)) with 1536.
      split; [apply Z.div_pos; lia|].
      apply Z.le_lt_trans with (snd element); [|lia].
      apply Z.div_le_upper_bound; lia. }
    rewrite sampler_loop_hits by lia. cbn [fst]. lia.
  - pose proof (proj2 (Sampler_in_circle_count uniform init element Hsize)).
    lia.
Qed.

Lemma gpu_cell_pi_Sampler {xstate : Type}
    (uniform : xstate -> float * xstate) (init : Z -> nat -> xstate)
    (sample_size : Z) :
  gpu_cell_pi uniform init sample_size
    = calculate_pi (Sampler_process uniform init (1, sample_size)) sample_size.
Proof.
  unfold gpu_cell_pi, Sampler_process, sub_sample_size, threadsperblock,
         blocks, np_zeros.
  cbn [fst snd]. rewrite length_replicate. reflexivity.
Qed.

(** C2, as the notebook has it: the estimate is 4 times the total of the
    in-circle counters divided by the sample size as long as every float32
    sum taken on the way stays below [2 ^ 24].  In the pipeline this is so
    for a sample size per sampler below [2 ^ 24]: whatever the order and
    grouping in which the runner sums the samplers' counts, the run prints
    [4 * total / sample_size], [total] the exact total of the counters of
    all threads of all samplers.  [calculate_pi] returns
    [4.0 * total / sample_size] on an array of whole counts whose total is
    below [2 ^ 24], in whatever order the float32 additions are made; so
    does the plain GPU cell for a sample size below [2 ^ 24].  The native
    function applies the formula, in floats, to the exact number of hits
    of its loop. *)
Theorem estimate_formula {xstate : Type}
    (uniform : xstate -> float * xstate) (init : Z -> nat -> xstate) :
  (forall (sample_size sampler_count per_sampler : Z) (p : combine_plan),
      sample_size_per_sampler sample_size sampler_count = Ok per_sampler ->
      0 <= per_sampler < 2 ^ 24 ->
      Permutation (plan_elements p)
                  (acc_per_sampler uniform init sampler_count per_sampler) ->
      print_pi sample_size (CombineGlobally py_sum p)
        = py_int_truediv
            (4 * pipeline_counters uniform init sampler_count per_sampler)
            sample_size /\
      printed (pipeline_run uniform init sample_size sampler_count)
        = py_int_truediv
            (4 * pipeline_counters uniform init sampler_count per_sampler)
            sample_size) /\
  (forall (t : sum_order) (counts : list Z) (sample_size : Z),
      Forall (fun c => 0 <= c) counts -> py_sum counts < 2 ^ 24 ->
      Permutation (order_cells t) counts ->
      calculate_pi (map Float32.of_Z counts) sample_size
        = nb_float_div_int
            (Float64.mul Float64.four (Float64.of_Z (py_sum counts)))
            sample_size /\
      calculate_pi_of_sum (float32_sum t) sample_size
        = nb_float_div_int
            (Float64.mul Float64.four (Float64.of_Z (py_sum counts)))
            sample_size) /\
  (forall sample_size : Z,
      0 <= sample_size < 2 ^ 24 ->
      gpu_cell_pi uniform init sample_size
        = nb_float_div_int
            (Float64.mul Float64.four
               (Float64.of_Z
                  (py_sum (Sampler_counts uniform init (1, sample_size)))))
            sample_size) /\
  (forall (rng : Type) (random : rng -> float * rng) (n : Z) (g : rng),
      fst (python_cpu_monte_carlo_pi random n g)
        = (a ← py_float_mul_int Float64.four
                 (Z.of_nat (hits random in_circle g (Z.to_nat n)));
           py_float_div_int a n)).
Proof.
  split; [|split; [|split]].
  - intros sample_size sampler_count per_sampler p Hper Hsmall Hperm.
    assert (Hsum : CombineGlobally py_sum p
                   = pipeline_counters uniform init sampler_count per_sampler).
    { rewrite CombineGlobally_sum, (py_sum_Permutation _ _ Hperm).
      unfold pipeline_counters. now rewrite acc_per_sampler_counts. }
    split.
    + unfold print_pi. now rewrite Hsum.
    + unfold pipeline_run. rewrite Hper. cbn [printed].
      unfold sum_acc, print_pi. cbn [CombineGlobally].
      unfold pipeline_counters. now rewrite acc_per_sampler_counts.
  - intros t counts sample_size Hall Hsum Hperm. split.
    + now apply calculate_pi_exact.
    + pose proof (Forall_Permutation_nonneg _ _ Hperm Hall) as Hall'.
      pose proof (py_sum_Permutation _ _ Hperm) as Htotal.
      unfold calculate_pi_of_sum.
      rewrite float32_sum_exact by (try assumption; lia).
      rewrite Htotal, to_float64_whole; [reflexivity|].
      pose proof (py_sum_nonneg _ Hall). lia.
  - intros sample_size Hsize.
    rewrite gpu_cell_pi_Sampler, Sampler_process_cells.
    apply calculate_pi_exact;
      apply (Sampler_counts_bounds uniform init (1, sample_size)); exact Hsize.
  - intros rng random n g. unfold python_cpu_monte_carlo_pi.
    now rewrite python_cpu_loop_hits.
Qed.

Lemma estimate_formula_witness :
  printed (pipeline_run Lcg.uniform_float32 Lcg.init 6144 2)
    = py_int_truediv
        (4 * pipeline_counters Lcg.uniform_float32 Lcg.init 2 3072) 6144 /\
  calculate_pi_of_sum
    (float32_sum (Plus (Plus (Cell 651) (Cell 0)) (Plus (Cell 7) (Cell 512))))
    1536
    = nb_float_div_int
        (Float64.mul Float64.four (Float64.of_Z (py_sum [512; 0; 651; 7])))
        1536 /\
  gpu_cell_pi Lcg.uniform_float32 Lcg.init 3072
    = nb_float_div_int
        (Float64.mul Float64.four
           (Float64.of_Z
              (py_sum (Sampler_counts Lcg.uniform_float32 Lcg.init (1, 3072)))))
        3072.
Proof.
  destruct (estimate_formula Lcg.uniform_float32 Lcg.init)
    as [Hpipeline [Hcalculate [Hcell _]]].
  split; [|split].
  - refine (proj2 (Hpipeline 6144 2 3072
                     (Merge (Bundle [2407]) (Bundle [2412])) _ _ _)).
    + reflexivity.
    + lia.
    + vm_compute. apply perm_swap.
  - refine (proj2 (Hcalculate
                     (Plus (Plus (Cell 651) (Cell 0))
                           (Plus (Cell 7) (Cell 512)))
                     [512; 0; 651; 7] 1536 _ _ _)).
    + repeat constructor; lia.
    + vm_compute. reflexivity.
    + cbn [order_cells app].
      apply Permutation_sym.
      apply (Permutation_cons_app [651; 0; 7] []). cbn [app].
      apply perm_swap.
  - apply Hcell. lia.
Defined.

(** C2 fails in [calculate_pi] at the sample size of the notebook.  The
    cells below are whole counts that the threads of the GPU cell can
    leave, each held exactly by its float32 cell; their total, 78540289, is
    no float32 number (the nearest one is 78540288), so the sum that
    [calculate_pi] scales is not the total, in whatever order it is added
    up, and the estimate returned is not [4 * total / sample_size]: not for
    the sum taken in index order, and not for the float32 nearest to the
    total either. *)
Lemma calculate_pi_rounds_total :
  py_sum notebook_scale_counts = 78540289 /\
  Forall (fun c => 0 <= c <= sub_sample_size notebook_sample_size)
         notebook_scale_counts /\
  map astype_int (map Float32.of_Z notebook_scale_counts)
    = notebook_scale_counts /\
  astype_int (Float32.of_Z 78540289) = 78540288 /\
  calculate_pi (map Float32.of_Z notebook_scale_counts) notebook_sample_size
    <> nb_float_div_int
         (Float64.mul Float64.four (Float64.of_Z 78540289))
         notebook_sample_size /\
  calculate_pi (map Float32.of_Z notebook_scale_counts) notebook_sample_size
    <> py_int_truediv (4 * 78540289) notebook_sample_size /\
  calculate_pi_of_sum (Float32.of_Z 78540289) notebook_sample_size
    <> nb_float_div_int
         (Float64.mul Float64.four (Float64.of_Z 78540289))
         notebook_sample_size.
Proof.
  split; [vm_compute; reflexivity|].
  split.
  { apply List.Forall_forall. intros c [<-|Hin].
    - vm_compute. split; discriminate.
    - apply repeat_spec in Hin. subst c. vm_compute. split; discriminate. }
  split; [vm_compute; reflexivity|].
  split; [vm_compute; reflexivity|].
  repeat split; vm_compute; discriminate.
Qed.

Example calculate_pi_notebook_scale :
  calculate_pi (map Float32.of_Z notebook_scale_counts) notebook_sample_size
    = Ok (S754_finite false 7074252132945754 (-51)) /\
  nb_float_div_int (Float64.mul Float64.four (Float64.of_Z 78540289))
                   notebook_sample_size
    = Ok (S754_finite false 7074280325479421 (-51)).
Proof. split; vm_compute; reflexivity. Qed.
